(** * Background jobs over Celery: submission, status query and revocation

    A shallow embedding of the job endpoints of the FastAPI/Celery template
    ([app/celery_tasks/router.py]) and of the task bodies they enqueue
    ([app/items/tasks.py], [app/files/tasks.py]).

    Celery is a library outside the repository. Module [Celery] states the
    behaviour of the calls the application makes, as the library has it:
    [AsyncResult] and its [status], [result], [info], [ready()] and
    [successful()], the backend's [get_task_meta] (an identifier it holds
    nothing for reads as PENDING), [Task.delay], [Task.update_state],
    [app.control.revoke], and a worker that runs a queued call to its end.

    Layout: [Python] (values, exceptions, numbers), [Celery], [Items] and
    [Files] (the task bodies), [Core] (the application and its task
    registry), [Router] (the HTTP handlers), [Str] and [Config] (the
    settings of [app/core/config.py] and the string methods they use), [Api]
    (the routes as [app/main.py] mounts them, and sequences of requests and
    worker steps), then the properties.

    Numbers: a Python [int] is a [Z]; a Python [float] is a binary64 float
    of the kernel, so the arithmetic on [percent] rounds as Python's does. *)

From Stdlib Require Import ZArith Uint63 Floats Ascii.
From stdpp Require Import base option list strings pretty gmap.

Local Open Scope string_scope.
Local Open Scope Z_scope.
Local Open Scope list_scope.

(** ** Python values *)

Module Python.

(** The JSON-compatible scalars that occur as dictionary values in the task
    results and progress payloads. *)
Inductive pyval : Type :=
| VNone
| VInt (z : Z)
| VFloat (f : float)
| VStr (s : string).

(** A Python [dict] with string keys. *)
Abbreviation pydict := (gmap string pyval).

(** An exception instance: its class name and its message, [str(exc)]. *)
Record PyException : Type := mkExc { exc_type : string; exc_message : string }.

(** What a task-meta ['result'] slot can hold. *)
Inductive pyobj : Type :=
| PyNone
| PyDict (d : pydict)
| PyExc (e : PyException).

(** [float(n)] for an [int] that fits a machine word; exact below 2^53. *)
Definition float_of_int (z : Z) : float := PrimFloat.of_uint63 (Uint63.of_Z z).


(** [x * n] for a float [x] and an int [n]. *)
Definition float_mul_int (x : float) (n : Z) : float :=
  PrimFloat.mul x (float_of_int n).

Definition ZeroDivisionError : PyException :=
  mkExc "ZeroDivisionError" "division by zero".

(** [a / b] on ints: true division, which raises on a zero divisor. For
    operands below 2^53 the quotient is the correctly rounded one, that is
    the IEEE quotient of the two conversions. *)
Definition truediv (a b : Z) : PyException + float :=
  if decide (b = 0) then inl ZeroDivisionError
  else inr (PrimFloat.div (float_of_int a) (float_of_int b)).

(** [len(l)] *)
Definition len {A} (l : list A) : Z := Z.of_nat (length l).

(** [d.get(k, dflt)] *)
Definition dict_get {V} (d : gmap string V) (k : string) (dflt : V) : V :=
  default dflt (d !! k).

End Python.

Import Python.

(** ** The Celery interface used by the application *)

Module Celery.

(** *** Task states ([celery.states]) *)
Module states.
Definition PENDING := "PENDING".
Definition STARTED := "STARTED".
Definition SUCCESS := "SUCCESS".
Definition FAILURE := "FAILURE".
Definition REVOKED := "REVOKED".
Definition READY_STATES : list string := [SUCCESS; FAILURE; REVOKED].
End states.

(** *** Effects of a task body

    A task body sleeps, publishes state updates through [self.update_state],
    and either returns or raises. Its run is the list of effects in order
    together with the outcome. *)
Inductive Event : Type :=
| Sleep (seconds : pyval)
| UpdateState (state : string) (meta : pydict).

Definition Task (A : Type) : Type := (list Event * (PyException + A))%type.

#[export] Instance task_ret : MRet Task := λ A a, ([], inr a).

#[export] Instance task_bind : MBind Task := λ A B f m,
  match m with
  | (t1, inl e) => (t1, inl e)
  | (t1, inr a) => let '(t2, r) := f a in (t1 ++ t2, r)
  end.

Definition lift {A} (r : PyException + A) : Task A := ([], r).

Definition emit (e : Event) : Task unit := ([e], inr tt).

Definition events {A} (m : Task A) : list Event := fst m.

Definition outcome {A} (m : Task A) : PyException + A := snd m.

(** The bound task instance a body receives as [self]; [self.request.id] is
    the identifier of the job being run. *)
Record BoundTask : Type := { request_id : string }.

(** [self.update_state(state=..., meta=...)] *)
Definition update_state (self : BoundTask) (state : string) (meta : pydict)
  : Task unit := emit (UpdateState state meta).

(** [time.sleep(seconds)] *)
Definition sleep (seconds : pyval) : Task unit := emit (Sleep seconds).

(** The state updates a run published, oldest first. *)
Definition updates (t : list Event) : list (string * pydict) :=
  omap (λ e, match e with
             | UpdateState s m => Some (s, m)
             | Sleep _ => None
             end) t.

(** *** Result backend, broker and control channel *)

Record TaskMeta : Type := { status : string; result : pyobj }.

Section App.
(** The type of the calls that can be queued; the application fixes it. *)
Context {Signature : Type}.

(** The application object: result backend, broker queue, the revoke
    commands broadcast so far, and the source of fresh identifiers with the
    number already drawn from it. *)
Record App : Type := {
  backend : gmap string TaskMeta;
  broker : list (string * Signature);
  revoked : list (string * bool);
  uuid : nat → string;
  minted : nat
}.

(** [backend.get_task_meta(task_id)]: an identifier the backend holds
    nothing for reads as pending. *)
Definition get_task_meta (app : App) (task_id : string) : TaskMeta :=
  default {| status := states.PENDING; result := PyNone |}
          (backend app !! task_id).

(** [backend.store_result(task_id, result, state)] *)
Definition store_result (task_id : string) (res : pyobj) (state : string)
    (app : App) : App :=
  {| backend := <[task_id := {| status := state; result := res |}]> (backend app);
     broker := broker app;
     revoked := revoked app;
     uuid := uuid app;
     minted := minted app |}.

(** [app.control.revoke(task_id, terminate=...)]: a broadcast to the
    workers; the backend is not written. *)
Definition control_revoke (task_id : string) (terminate : bool) (app : App)
  : App :=
  {| backend := backend app;
     broker := broker app;
     revoked := revoked app ++ [(task_id, terminate)];
     uuid := uuid app;
     minted := minted app |}.
End App.

Arguments App : clear implicits.

(** *** [celery.result.AsyncResult] *)
Module AsyncResult.
Section Handle.
Context {Signature : Type}.

(** [AsyncResult(task_id, app=app)] *)
Record t : Type := new { id : string; app : App Signature }.

Definition state (r : t) : string := Celery.status (get_task_meta (app r) (id r)).

Definition status (r : t) : string := state r.

Definition result (r : t) : pyobj := Celery.result (get_task_meta (app r) (id r)).

Definition info (r : t) : pyobj := result r.

Definition ready (r : t) : bool := bool_decide (state r ∈ states.READY_STATES).

Definition successful (r : t) : bool := bool_decide (state r = states.SUCCESS).
End Handle.
Arguments t : clear implicits.
End AsyncResult.

Section Calls.
Context {Signature : Type}.

(** [task.delay(...)]: draws a fresh identifier, publishes the call and
    returns its handle without waiting. *)
Definition delay (call : Signature) (app : App Signature)
  : AsyncResult.t Signature * App Signature :=
  let task_id := uuid app (minted app) in
  let app' :=
    {| backend := backend app;
       broker := broker app ++ [(task_id, call)];
       revoked := revoked app;
       uuid := uuid app;
       minted := S (minted app) |} in
  (AsyncResult.new task_id app', app').

(** *** The worker side

    [run] is the task registry: it maps a queued call to the body to run. *)
Context (run : BoundTask → Signature → Task pydict).

Definition TaskRevokedError (reason : string) : PyException :=
  mkExc "TaskRevokedError" reason.

(** One published state update reaches the backend (the meta replaces what
    was stored); sleeping leaves it alone. *)
Definition publish (task_id : string) (app : App Signature) (e : Event)
  : App Signature :=
  match e with
  | Sleep _ => app
  | UpdateState state meta => store_result task_id (PyDict meta) state app
  end.

(** A worker runs one call to its end: a call whose identifier was revoked
    is not started and is marked [REVOKED]; otherwise the updates of the body
    are stored as they come, then its return value under [SUCCESS] or the
    exception it raised under [FAILURE]. (The [STARTED] mark of
    [task_track_started], overwritten before the run ends, is left out.) *)
Definition trace_task (task_id : string) (call : Signature)
    (app : App Signature) : App Signature :=
  if bool_decide (task_id ∈ (revoked app).*1) then
    store_result task_id (PyExc (TaskRevokedError "revoked")) states.REVOKED app
  else
    let m := run {| request_id := task_id |} call in
    let app := foldl (publish task_id) app (events m) in
    match outcome m with
    | inr retval => store_result task_id (PyDict retval) states.SUCCESS app
    | inl exc => store_result task_id (PyExc exc) states.FAILURE app
    end.

(** A worker takes the oldest queued call, if any, and runs it. *)
Definition worker_step (app : App Signature) : App Signature :=
  match broker app with
  | [] => app
  | (task_id, call) :: rest =>
      trace_task task_id call
        {| backend := backend app;
           broker := rest;
           revoked := revoked app;
           uuid := uuid app;
           minted := minted app |}
  end.
End Calls.

End Celery.

Import Celery.

(** ** [app/items/tasks.py] *)

Module Items.

(** [process_item(self, item_id, operation="validate")] *)
Definition process_item (self : BoundTask) (item_id : Z) (operation : string)
  : Task pydict :=
  sleep (VInt 2);;
  let result : pydict :=
    {[ "task_id" := VStr (request_id self);
       "item_id" := VInt item_id;
       "operation" := VStr operation;
       "status" := VStr "completed" ]} in
  mret result.

(** The loop of [bulk_import]: [for i, _item in enumerate(items_data)], with
    the loop index [i] and the counter [processed] threaded through. *)
Fixpoint bulk_import_loop (self : BoundTask) (total : Z) (items : list pydict)
    (i processed : Z) : Task Z :=
  match items with
  | [] => mret processed
  | _item :: rest =>
      sleep (VFloat 0.5);;
      let processed := processed + 1 in
      q ← lift (truediv (i + 1) total);
      let progress := float_mul_int q 100 in
      update_state self "PROGRESS"
        {[ "current" := VInt (i + 1);
           "total" := VInt total;
           "percent" := VFloat progress ]};;
      bulk_import_loop self total rest (i + 1) processed
  end.

(** [bulk_import(self, items_data)] *)
Definition bulk_import (self : BoundTask) (items_data : list pydict)
  : Task pydict :=
  let total := len items_data in
  processed ← bulk_import_loop self total items_data 0 0;
  mret ({[ "task_id" := VStr (request_id self);
           "status" := VStr "completed";
           "total_items" := VInt total;
           "processed" := VInt processed ]} : pydict).

End Items.

(** ** [app/files/tasks.py] *)

Module Files.

Definition processing_times : gmap string Z :=
  {[ "analyze" := 2; "scan" := 3; "convert" := 5; "compress" := 4 ]}.

(** [process_file(self, filename, operation="analyze")] *)
Definition process_file (self : BoundTask) (filename operation : string)
  : Task pydict :=
  sleep (VInt (dict_get processing_times operation 2));;
  let result : pydict :=
    {[ "task_id" := VStr (request_id self);
       "filename" := VStr filename;
       "operation" := VStr operation;
       "status" := VStr "completed" ]} in
  mret result.

(** [cleanup_old_files(self, max_age_days=30)] *)
Definition cleanup_old_files (self : BoundTask) (max_age_days : Z)
  : Task pydict :=
  sleep (VInt 3);;
  let deleted_count := 0 in
  mret ({[ "task_id" := VStr (request_id self);
           "status" := VStr "completed";
           "max_age_days" := VInt max_age_days;
           "deleted_count" := VInt deleted_count ]} : pydict).

End Files.

(** ** [app/core/celery.py]: the application and its registered tasks *)

Module Core.

(** A queued call of one of the four registered tasks with its arguments. *)
Inductive Signature : Type :=
| ProcessItem (item_id : Z) (operation : string)
| BulkImport (items_data : list pydict)
| ProcessFile (filename operation : string)
| CleanupOldFiles (max_age_days : Z).

(** The names the tasks are registered under ([@shared_task(name=...)]). *)
Definition name (call : Signature) : string :=
  match call with
  | ProcessItem _ _ => "items.process_item"
  | BulkImport _ => "items.bulk_import"
  | ProcessFile _ _ => "files.process_file"
  | CleanupOldFiles _ => "files.cleanup_old_files"
  end.

Definition run (self : BoundTask) (call : Signature) : Task pydict :=
  match call with
  | ProcessItem item_id operation => Items.process_item self item_id operation
  | BulkImport items_data => Items.bulk_import self items_data
  | ProcessFile filename operation => Files.process_file self filename operation
  | CleanupOldFiles max_age_days => Files.cleanup_old_files self max_age_days
  end.

Abbreviation celery := (App Signature).

(** A worker of this application. *)
Definition worker (app : celery) : celery := worker_step run app.

End Core.

Import Core.

(** ** [app/celery_tasks/router.py] *)

Module Router.

(** *** Request schemas *)
Module ProcessItemRequest.
Record t : Type := { item_id : Z; operation : string }.
End ProcessItemRequest.

Module BulkImportRequest.
Record t : Type := { items : list pydict }.
End BulkImportRequest.

Module ProcessFileRequest.
Record t : Type := { filename : string; operation : string }.
End ProcessFileRequest.

Module CleanupFilesRequest.
Record t : Type := { max_age_days : Z }.
End CleanupFilesRequest.

(** *** Response schemas *)
Module TaskResponse.
Record t : Type := { task_id : string; status : string }.
End TaskResponse.

Module TaskStatusResponse.
Record t : Type :=
  { task_id : string; status : string; result : pyobj; error : option string }.

(** [response.result = v] *)
Definition set_result (v : pyobj) (r : t) : t :=
  {| task_id := task_id r; status := status r; result := v; error := error r |}.

(** [response.error = v] *)
Definition set_error (v : string) (r : t) : t :=
  {| task_id := task_id r; status := status r; result := result r; error := Some v |}.
End TaskStatusResponse.

(** *** Handlers

    A handler reads and changes the application object and either returns a
    value or raises an [HTTPException]. *)
Record HTTPException : Type := { status_code : Z; detail : string }.

Definition Handler (A : Type) : Type := celery → (HTTPException + A) * celery.

#[export] Instance handler_ret : MRet Handler := λ A a app, (inr a, app).

#[export] Instance handler_bind : MBind Handler := λ A B f m app,
  match m app with
  | (inl e, app') => (inl e, app')
  | (inr a, app') => f a app'
  end.

(** [raise HTTPException(status_code=..., detail=...)] *)
Definition raise {A} (e : HTTPException) : Handler A := λ app, (inl e, app).

(** The module-level [celery_app]. *)
Definition celery_app : Handler celery := λ app, (inr app, app).

(** A call that changes the application object. *)
Definition call {A} (f : celery → A * celery) : Handler A :=
  λ app, let '(a, app') := f app in (inr a, app').

(** What the client receives: FastAPI answers 200 with the returned value,
    and the status code and detail of a raised [HTTPException]. *)
Record Response (A : Type) : Type :=
  { code : Z; body : string + A }.
Arguments code {A} _.
Arguments body {A} _.

Definition respond {A} (h : Handler A) (app : celery) : Response A * celery :=
  match h app with
  | (inr a, app') => ({| code := 200; body := inr a |}, app')
  | (inl e, app') => ({| code := status_code e; body := inl (detail e) |}, app')
  end.

Section Endpoints.
(** [str] on a mapping is Python's own rendering; it is a parameter here. *)
Context (repr_dict : pydict → string).

(** [str(o)] for what a result slot holds. *)
Definition str (o : pyobj) : string :=
  match o with
  | PyNone => "None"
  | PyDict d => repr_dict d
  | PyExc e => exc_message e
  end.

(** [POST /items/process] *)
Definition create_process_item_task (request : ProcessItemRequest.t)
  : Handler TaskResponse.t :=
  task ← call (delay (ProcessItem (ProcessItemRequest.item_id request)
                                  (ProcessItemRequest.operation request)));
  mret {| TaskResponse.task_id := AsyncResult.id task;
          TaskResponse.status := "PENDING" |}.

(** [POST /items/bulk-import] *)
Definition create_bulk_import_task (request : BulkImportRequest.t)
  : Handler TaskResponse.t :=
  task ← call (delay (BulkImport (BulkImportRequest.items request)));
  mret {| TaskResponse.task_id := AsyncResult.id task;
          TaskResponse.status := "PENDING" |}.

(** [POST /files/process] *)
Definition create_process_file_task (request : ProcessFileRequest.t)
  : Handler TaskResponse.t :=
  task ← call (delay (ProcessFile (ProcessFileRequest.filename request)
                                  (ProcessFileRequest.operation request)));
  mret {| TaskResponse.task_id := AsyncResult.id task;
          TaskResponse.status := "PENDING" |}.

(** [POST /files/cleanup] *)
Definition create_cleanup_files_task (request : CleanupFilesRequest.t)
  : Handler TaskResponse.t :=
  task ← call (delay (CleanupOldFiles (CleanupFilesRequest.max_age_days request)));
  mret {| TaskResponse.task_id := AsyncResult.id task;
          TaskResponse.status := "PENDING" |}.

(** [GET /status/{task_id}] *)
Definition get_task_status (task_id : string)
  : Handler TaskStatusResponse.t :=
  app ← celery_app;
  let result := AsyncResult.new task_id app in
  let response :=
    {| TaskStatusResponse.task_id := task_id;
       TaskStatusResponse.status := AsyncResult.status result;
       TaskStatusResponse.result := PyNone;
       TaskStatusResponse.error := None |} in
  let response :=
    if AsyncResult.ready result then
      if AsyncResult.successful result then
        TaskStatusResponse.set_result (AsyncResult.result result) response
      else
        TaskStatusResponse.set_error (str (AsyncResult.result result)) response
    else if bool_decide (AsyncResult.status result = "PROGRESS") then
      TaskStatusResponse.set_result (AsyncResult.info result) response
    else response in
  mret response.

(** [DELETE /revoke/{task_id}] *)
Definition revoke_task (task_id : string) : Handler pydict :=
  app ← celery_app;
  let result := AsyncResult.new task_id app in
  (if AsyncResult.ready result
   then raise {| status_code := 400; detail := "Task already completed" |}
   else mret tt);;
  call (λ app, (tt, control_revoke task_id true app));;
  mret ({[ "task_id" := VStr task_id; "status" := VStr "revoked" ]} : pydict).

End Endpoints.

End Router.

Import Router.

(** ** Python [str] methods used by the configuration

    A [str] is the string of its code points, taken below 256. *)

Module Str.

(** [c.isspace()]: the whitespace code points below 256 (tab to carriage
    return, the four separators 28..31, space, next-line and no-break
    space). *)
Definition isspace (c : ascii) : bool :=
  let n := Ascii.N_of_ascii c in
  ((9 <=? n)%N && (n <=? 13)%N) || ((28 <=? n)%N && (n <=? 32)%N)
  || (n =? 133)%N || (n =? 160)%N.

(** Truth value of a string: non-empty. *)
Definition truthy (s : string) : bool :=
  match s with
  | EmptyString => false
  | String _ _ => true
  end.

(** [s.startswith(c)] for a one-character prefix. *)
Definition startswith (s : string) (c : ascii) : bool :=
  match s with
  | EmptyString => false
  | String c' _ => bool_decide (c' = c)
  end.

(** [s.lstrip()] *)
Fixpoint lstrip (s : string) : string :=
  match s with
  | EmptyString => EmptyString
  | String c rest => if isspace c then lstrip rest else s
  end.

(** [s.rstrip()] *)
Fixpoint rstrip (s : string) : string :=
  match s with
  | EmptyString => EmptyString
  | String c rest =>
      match rstrip rest with
      | EmptyString => if isspace c then EmptyString else String c EmptyString
      | kept => String c kept
      end
  end.

(** [s.strip()] *)
Definition strip (s : string) : string := rstrip (lstrip s).

(** The piece before the first separator and the pieces after it. *)
Fixpoint split_pieces (sep : ascii) (s : string) : string * list string :=
  match s with
  | EmptyString => (EmptyString, [])
  | String c rest =>
      let '(piece, pieces) := split_pieces sep rest in
      if bool_decide (c = sep) then (EmptyString, piece :: pieces)
      else (String c piece, pieces)
  end.

(** [s.split(sep)] for a one-character separator. *)
Definition split (sep : ascii) (s : string) : list string :=
  let '(piece, pieces) := split_pieces sep s in piece :: pieces.

(** [sep.join(l)] for a one-character separator. *)
Fixpoint join (sep : ascii) (l : list string) : string :=
  match l with
  | [] => EmptyString
  | [s] => s
  | s :: rest => s +:+ String sep (join sep rest)
  end.

(** The number of occurrences of [c] in [s]. *)
Fixpoint count (c : ascii) (s : string) : nat :=
  match s with
  | EmptyString => 0%nat
  | String c' rest => ((if bool_decide (c' = c) then 1 else 0) + count c rest)%nat
  end.

(** The last character of [s], if any. *)
Fixpoint last_char (s : string) : option ascii :=
  match s with
  | EmptyString => None
  | String c EmptyString => Some c
  | String _ rest => last_char rest
  end.

(** [s] neither starts nor ends with whitespace. *)
Definition trimmed (s : string) : bool :=
  match s with
  | EmptyString => true
  | String c _ => negb (isspace c) && negb (from_option isspace false (last_char s))
  end.

End Str.

(** ** [app/core/config.py] *)

Module Config.

(** A value of any type, as a validator in ["before"] mode receives it. *)
#[warnings="-register-all"]
Inductive pyany : Type :=
| AnyNone
| AnyBool (b : bool)
| AnyInt (z : Z)
| AnyStr (s : string)
| AnyList (l : list pyany).

(** What [assemble_cors_origins] can raise: its own [ValueError(v)], or the
    exception of [json.loads]. *)
Inductive Raised : Type :=
| ValueError (v : pyany)
| JSONDecodeError (e : PyException).

Record Settings : Type := {
  APP_NAME : string;
  APP_VERSION : string;
  DEBUG : bool;
  ENVIRONMENT : string;
  SECRET_KEY : string;
  HOST : string;
  PORT : Z;
  RELOAD : bool;
  WORKERS : Z;
  POSTGRES_SERVER : string;
  POSTGRES_PORT : Z;
  POSTGRES_USER : string;
  POSTGRES_PASSWORD : string;
  POSTGRES_DB : string;
  POSTGRES_TEST_DB : string;
  REDIS_HOST : string;
  REDIS_PORT : Z;
  REDIS_DB : Z;
  REDIS_PASSWORD : string;
  CELERY_BROKER_DB : Z;
  CELERY_RESULT_DB : Z;
  BACKEND_CORS_ORIGINS : list string;
  RATE_LIMIT_PER_MINUTE : Z;
  MAX_UPLOAD_SIZE : Z;
  UPLOAD_DIR : string;
  TEST_UPLOAD_DIR : string;
  LOG_LEVEL : string
}.

(** The field defaults of the class. *)
Definition defaults : Settings :=
  {| APP_NAME := "FastAPI Basic Template";
     APP_VERSION := "0.1.0";
     DEBUG := true;
     ENVIRONMENT := "development";
     SECRET_KEY := "dev-secret-key-change-in-production";
     HOST := "0.0.0.0";
     PORT := 8000;
     RELOAD := true;
     WORKERS := 1;
     POSTGRES_SERVER := "postgres";
     POSTGRES_PORT := 5432;
     POSTGRES_USER := "postgres";
     POSTGRES_PASSWORD := "postgres";
     POSTGRES_DB := "fastapi_db";
     POSTGRES_TEST_DB := "fastapi_db_test";
     REDIS_HOST := "redis";
     REDIS_PORT := 6379;
     REDIS_DB := 0;
     REDIS_PASSWORD := "";
     CELERY_BROKER_DB := 1;
     CELERY_RESULT_DB := 2;
     BACKEND_CORS_ORIGINS := [];
     RATE_LIMIT_PER_MINUTE := 60;
     MAX_UPLOAD_SIZE := 10485760;
     UPLOAD_DIR := "./uploads";
     TEST_UPLOAD_DIR := "./uploads_test";
     LOG_LEVEL := "INFO" |}.

(** [f"{n}"] for an [int]. *)
Definition fmt (n : Z) : string := pretty n.

Definition DATABASE_URL (self : Settings) : string :=
  "postgresql+asyncpg://" +:+ POSTGRES_USER self +:+ ":" +:+ POSTGRES_PASSWORD self
  +:+ "@" +:+ POSTGRES_SERVER self +:+ ":" +:+ fmt (POSTGRES_PORT self)
  +:+ "/" +:+ POSTGRES_DB self.

Definition SYNC_DATABASE_URL (self : Settings) : string :=
  "postgresql+psycopg2://" +:+ POSTGRES_USER self +:+ ":" +:+ POSTGRES_PASSWORD self
  +:+ "@" +:+ POSTGRES_SERVER self +:+ ":" +:+ fmt (POSTGRES_PORT self)
  +:+ "/" +:+ POSTGRES_DB self.

Definition TEST_DATABASE_URL (self : Settings) : string :=
  "postgresql+asyncpg://" +:+ POSTGRES_USER self +:+ ":" +:+ POSTGRES_PASSWORD self
  +:+ "@" +:+ POSTGRES_SERVER self +:+ ":" +:+ fmt (POSTGRES_PORT self)
  +:+ "/" +:+ POSTGRES_TEST_DB self.

Definition SYNC_TEST_DATABASE_URL (self : Settings) : string :=
  "postgresql+psycopg2://" +:+ POSTGRES_USER self +:+ ":" +:+ POSTGRES_PASSWORD self
  +:+ "@" +:+ POSTGRES_SERVER self +:+ ":" +:+ fmt (POSTGRES_PORT self)
  +:+ "/" +:+ POSTGRES_TEST_DB self.

Definition REDIS_URL (self : Settings) : string :=
  if Str.truthy (REDIS_PASSWORD self) then
    "redis://:" +:+ REDIS_PASSWORD self +:+ "@" +:+ REDIS_HOST self +:+ ":"
    +:+ fmt (REDIS_PORT self) +:+ "/" +:+ fmt (REDIS_DB self)
  else
    "redis://" +:+ REDIS_HOST self +:+ ":" +:+ fmt (REDIS_PORT self)
    +:+ "/" +:+ fmt (REDIS_DB self).

Definition CELERY_BROKER_URL (self : Settings) : string :=
  if Str.truthy (REDIS_PASSWORD self) then
    "redis://:" +:+ REDIS_PASSWORD self +:+ "@" +:+ REDIS_HOST self +:+ ":"
    +:+ fmt (REDIS_PORT self) +:+ "/" +:+ fmt (CELERY_BROKER_DB self)
  else
    "redis://" +:+ REDIS_HOST self +:+ ":" +:+ fmt (REDIS_PORT self)
    +:+ "/" +:+ fmt (CELERY_BROKER_DB self).

Definition CELERY_RESULT_BACKEND (self : Settings) : string :=
  if Str.truthy (REDIS_PASSWORD self) then
    "redis://:" +:+ REDIS_PASSWORD self +:+ "@" +:+ REDIS_HOST self +:+ ":"
    +:+ fmt (REDIS_PORT self) +:+ "/" +:+ fmt (CELERY_RESULT_DB self)
  else
    "redis://" +:+ REDIS_HOST self +:+ ":" +:+ fmt (REDIS_PORT self)
    +:+ "/" +:+ fmt (CELERY_RESULT_DB self).

Section Validators.
(** [json.loads] belongs to the standard library; it is a parameter here. *)
Context (json_loads : string → PyException + pyany).

(** [assemble_cors_origins(cls, v)] *)
Definition assemble_cors_origins (v : pyany) : Raised + pyany :=
  match v with
  | AnyStr s =>
      if negb (Str.startswith s "["%char)
      then inr (AnyList ((λ i, AnyStr (Str.strip i)) <$> Str.split ","%char s))
      else match json_loads s with
           | inr parsed => inr parsed
           | inl e => inl (JSONDecodeError e)
           end
  | AnyList _ => inr v
  | _ => inl (ValueError v)
  end.
End Validators.

End Config.

(** ** The routes

    The six routes [router] declares in router.py, as [app/main.py] mounts
    them under ["/celery"], and the requests that reach them. *)

Module Api.

Inductive Request : Type :=
| PostItemsProcess (request : ProcessItemRequest.t)
| PostItemsBulkImport (request : BulkImportRequest.t)
| PostFilesProcess (request : ProcessFileRequest.t)
| PostFilesCleanup (request : CleanupFilesRequest.t)
| GetStatus (task_id : string)
| DeleteRevoke (task_id : string).

(** [app.include_router(celery_router, prefix="/celery", ...)] *)
Definition prefix : string := "/celery".

(** The method and the path of a request, from the decorators. *)
Definition route (r : Request) : string * string :=
  match r with
  | PostItemsProcess _ => ("POST", prefix +:+ "/items/process")
  | PostItemsBulkImport _ => ("POST", prefix +:+ "/items/bulk-import")
  | PostFilesProcess _ => ("POST", prefix +:+ "/files/process")
  | PostFilesCleanup _ => ("POST", prefix +:+ "/files/cleanup")
  | GetStatus task_id => ("GET", prefix +:+ "/status/" +:+ task_id)
  | DeleteRevoke task_id => ("DELETE", prefix +:+ "/revoke/" +:+ task_id)
  end.

(** The handler a request reaches, by the name of its function. *)
Definition endpoint (r : Request) : string :=
  match r with
  | PostItemsProcess _ => "create_process_item_task"
  | PostItemsBulkImport _ => "create_bulk_import_task"
  | PostFilesProcess _ => "create_process_file_task"
  | PostFilesCleanup _ => "create_cleanup_files_task"
  | GetStatus _ => "get_task_status"
  | DeleteRevoke _ => "revoke_task"
  end.

(** The path parameter of a request, if its route has one. *)
Definition path_param (r : Request) : option string :=
  match r with
  | GetStatus task_id | DeleteRevoke task_id => Some task_id
  | _ => None
  end.

(** Whether a request is one of the four submissions. *)
Definition is_submission (r : Request) : bool :=
  match r with
  | GetStatus _ | DeleteRevoke _ => false
  | _ => true
  end.

Inductive Reply : Type :=
| Submitted (r : Response TaskResponse.t)
| Status (r : Response TaskStatusResponse.t)
| Revoked (r : Response pydict).

(** The status code of a reply. *)
Definition reply_code (r : Reply) : Z :=
  match r with
  | Submitted r => code r
  | Status r => code r
  | Revoked r => code r
  end.

Section Serve.
Context (repr_dict : pydict → string).

(** A request served by its handler. *)
Definition serve (r : Request) (app : celery) : Reply * celery :=
  match r with
  | PostItemsProcess request =>
      let '(resp, app') := respond (create_process_item_task request) app in
      (Submitted resp, app')
  | PostItemsBulkImport request =>
      let '(resp, app') := respond (create_bulk_import_task request) app in
      (Submitted resp, app')
  | PostFilesProcess request =>
      let '(resp, app') := respond (create_process_file_task request) app in
      (Submitted resp, app')
  | PostFilesCleanup request =>
      let '(resp, app') := respond (create_cleanup_files_task request) app in
      (Submitted resp, app')
  | GetStatus task_id =>
      let '(resp, app') := respond (get_task_status repr_dict task_id) app in
      (Status resp, app')
  | DeleteRevoke task_id =>
      let '(resp, app') := respond (revoke_task task_id) app in
      (Revoked resp, app')
  end.

(** What happens to the application: a client request, or a worker taking
    the oldest queued call. *)
Inductive Action : Type :=
| Call (r : Request)
| Work.

Definition step (app : celery) (a : Action) : celery :=
  match a with
  | Call r => (serve r app).2
  | Work => worker app
  end.

Definition run (actions : list Action) (app : celery) : celery :=
  foldl step app actions.
End Serve.

(** The application at start: nothing stored, queued, revoked or drawn. *)
Definition initial (uuid : nat → string) : celery :=
  {| backend := ∅; broker := []; revoked := []; uuid := uuid; minted := 0 |}.

End Api.

(** ** Vocabulary of the properties *)

(** The payload [bulk_import] publishes after the element numbered [current]
    (counting from 1) of [total]. *)
Definition progress_meta (current total : Z) : pydict :=
  {[ "current" := VInt current;
     "total" := VInt total;
     "percent" := VFloat (float_mul_int
                            (PrimFloat.div (float_of_int current) (float_of_int total))
                            100) ]}.


(** The same comparison up to rounding: the two floats differ by at most
    [2^-40] of the right-hand side. *)
Definition percent_is_close (meta : pydict) : bool :=
  match meta !! "current", meta !! "total", meta !! "percent" with
  | Some (VInt c), Some (VInt t), Some (VFloat p) =>
      match truediv (100 * c) t with
      | inr q => PrimFloat.leb (PrimFloat.abs (PrimFloat.sub p q))
                               (PrimFloat.mul 0x1p-40 (PrimFloat.abs q))
      | inl _ => false
      end
  | _, _, _ => false
  end.

(** [percent_is_close] checked on every update of every list length from 1
    to [bound]. *)
Definition close_upto (bound : nat) : bool :=
  forallb (λ n : nat,
             forallb (λ k : nat,
                        percent_is_close
                          (progress_meta (Z.of_nat k + 1) (Z.of_nat n)))
                     (seq 0 n))
          (seq 1 bound).

(** The record the backend holds for a job once a worker has run it. *)
Definition final_record (app : celery) (task_id : string) (call : Signature)
  : TaskMeta :=
  get_task_meta (trace_task Core.run task_id call app) task_id.

(** The terminal states. *)
Definition terminal (state : string) : Prop :=
  state = "SUCCESS" ∨ state = "FAILURE" ∨ state = "REVOKED".

(** The body of an accepted cancellation. *)
Definition revoked_body (task_id : string) : pydict :=
  {[ "task_id" := VStr task_id; "status" := VStr "revoked" ]}.

(** *** Sample inputs *)

Definition sample_repr (d : pydict) : string := "{...}".

Definition sample_uuid (n : nat) : string :=
  "job-" +:+ pretty n.

(** A freshly started application: nothing stored, queued or revoked. *)
Definition fresh_app : celery :=
  {| backend := ∅; broker := []; revoked := []; uuid := sample_uuid; minted := 0 |}.

Definition sample_item (n : Z) : pydict := {[ "name" := VStr "Item"; "rank" := VInt n ]}.

Definition three_items : list pydict := [sample_item 1; sample_item 2; sample_item 3].

Definition validate_item_1 : ProcessItemRequest.t :=
  {| ProcessItemRequest.item_id := 1; ProcessItemRequest.operation := "validate" |}.

(** One job submitted to a fresh application (it gets the identifier
    ["job-0"]). *)
Definition app_submitted : celery :=
  (respond (create_process_item_task validate_item_1) fresh_app).2.

(** The same job, run by a worker. *)
Definition app_succeeded : celery := worker app_submitted.

(** The same job, revoked while queued, then reached by a worker. *)
Definition app_revoked : celery :=
  worker (respond (revoke_task "job-0") app_submitted).2.

(** A job that faulted: the backend holds its exception under [FAILURE]. *)
Definition app_failed : celery :=
  store_result "job-0" (PyExc (mkExc "ValueError" "Task failed")) "FAILURE"
    app_submitted.

(** The result mapping of the single-item scenario as the specification
    lists it. *)
Definition listed_item_result : pydict :=
  {[ "item_id" := VInt 1;
     "operation" := VStr "validate";
     "status" := VStr "completed" ]}.

(** *** Vocabulary of the further properties *)

(** The application while a worker runs [call]: after the first [j] effects
    of the body have happened. *)
Definition during (app : celery) (task_id : string) (call : Signature) (j : nat)
  : celery :=
  foldl (publish task_id) app
        (take j (events (Core.run {| request_id := task_id |} call))).

(** The two effects of one turn of the loop of [bulk_import]. *)
Definition bulk_import_turn (total : Z) (k : nat) : list Event :=
  [Sleep (VFloat 0.5);
   UpdateState "PROGRESS" (progress_meta (Z.of_nat k + 1) total)].

(** [(current / total) * 100] on floats. *)
Definition percent_of (current total : Z) : float :=
  float_mul_int (PrimFloat.div (float_of_int current) (float_of_int total)) 100.

(** For every list length [n] from 1 to [bound]: the first percent is above
    zero, each percent is below the next, and the last is exactly 100. *)
Definition percent_scale_upto (bound : nat) : bool :=
  forallb (λ n : nat,
             PrimFloat.ltb 0 (percent_of 1 (Z.of_nat n))
             && forallb (λ k : nat,
                           PrimFloat.ltb (percent_of (Z.of_nat k) (Z.of_nat n))
                                         (percent_of (Z.of_nat k + 1) (Z.of_nat n)))
                        (seq 1 (n - 1))
             && PrimFloat.eqb (percent_of (Z.of_nat n) (Z.of_nat n)) 100)
          (seq 1 bound).

(** The settings [s] with another Redis password and host. *)
Definition with_redis (s : Config.Settings) (password host : string)
  : Config.Settings :=
  {| Config.APP_NAME := Config.APP_NAME s;
     Config.APP_VERSION := Config.APP_VERSION s;
     Config.DEBUG := Config.DEBUG s;
     Config.ENVIRONMENT := Config.ENVIRONMENT s;
     Config.SECRET_KEY := Config.SECRET_KEY s;
     Config.HOST := Config.HOST s;
     Config.PORT := Config.PORT s;
     Config.RELOAD := Config.RELOAD s;
     Config.WORKERS := Config.WORKERS s;
     Config.POSTGRES_SERVER := Config.POSTGRES_SERVER s;
     Config.POSTGRES_PORT := Config.POSTGRES_PORT s;
     Config.POSTGRES_USER := Config.POSTGRES_USER s;
     Config.POSTGRES_PASSWORD := Config.POSTGRES_PASSWORD s;
     Config.POSTGRES_DB := Config.POSTGRES_DB s;
     Config.POSTGRES_TEST_DB := Config.POSTGRES_TEST_DB s;
     Config.REDIS_HOST := host;
     Config.REDIS_PORT := Config.REDIS_PORT s;
     Config.REDIS_DB := Config.REDIS_DB s;
     Config.REDIS_PASSWORD := password;
     Config.CELERY_BROKER_DB := Config.CELERY_BROKER_DB s;
     Config.CELERY_RESULT_DB := Config.CELERY_RESULT_DB s;
     Config.BACKEND_CORS_ORIGINS := Config.BACKEND_CORS_ORIGINS s;
     Config.RATE_LIMIT_PER_MINUTE := Config.RATE_LIMIT_PER_MINUTE s;
     Config.MAX_UPLOAD_SIZE := Config.MAX_UPLOAD_SIZE s;
     Config.UPLOAD_DIR := Config.UPLOAD_DIR s;
     Config.TEST_UPLOAD_DIR := Config.TEST_UPLOAD_DIR s;
     Config.LOG_LEVEL := Config.LOG_LEVEL s |}.

(** A [json.loads] for the samples: it accepts nothing. *)
Definition sample_json_loads (s : string) : PyException + Config.pyany :=
  inl (mkExc "JSONDecodeError" "Expecting value").

(** The identifiers a sample application draws. *)
Definition sample_actions : list Api.Action :=
  [Api.Call (Api.PostItemsProcess validate_item_1);
   Api.Call (Api.PostItemsBulkImport {| BulkImportRequest.items := three_items |});
   Api.Work;
   Api.Call (Api.DeleteRevoke "job-1");
   Api.Work].

(** The call a submission request puts on the queue. *)
Definition queued_call (r : Api.Request) : option Signature :=
  match r with
  | Api.PostItemsProcess request =>
      Some (ProcessItem (ProcessItemRequest.item_id request)
                        (ProcessItemRequest.operation request))
  | Api.PostItemsBulkImport request =>
      Some (BulkImport (BulkImportRequest.items request))
  | Api.PostFilesProcess request =>
      Some (ProcessFile (ProcessFileRequest.filename request)
                        (ProcessFileRequest.operation request))
  | Api.PostFilesCleanup request =>
      Some (CleanupOldFiles (CleanupFilesRequest.max_age_days request))
  | Api.GetStatus _ | Api.DeleteRevoke _ => None
  end.

(** The answer of a status query for a job that reads PENDING. *)
Definition pending_answer (task_id : string) : Response TaskStatusResponse.t :=
  {| code := 200;
     body := inr {| TaskStatusResponse.task_id := task_id;
                    TaskStatusResponse.status := "PENDING";
                    TaskStatusResponse.result := PyNone;
                    TaskStatusResponse.error := None |} |}.

(** Every identifier the application knows (queued or recorded) was drawn
    from its identifier source. *)
Definition issued_only (app : celery) : Prop :=
  (∀ id, id ∈ (broker app).*1 → ∃ k : nat, id = uuid app k) ∧
  (∀ id, is_Some (backend app !! id) → ∃ k : nat, id = uuid app k).


(** ** Running task bodies *)

Section TaskRuns.
Context {A B : Type}.

Lemma emit_bind (e : Event) (k : unit → Task A) :
  emit e ≫= k = (e :: events (k tt), outcome (k tt)).
Proof. unfold emit, mbind, task_bind, events, outcome. by destruct (k tt). Qed.

Lemma lift_bind (a : A) (k : A → Task B) : lift (inr a) ≫= k = k a.
Proof. unfold lift, mbind, task_bind. by destruct (k a). Qed.

Lemma bind_returns (m : Task A) (k : A → Task B) (a : A) :
  outcome m = inr a →
  events (m ≫= k) = events m ++ events (k a) ∧ outcome (m ≫= k) = outcome (k a).
Proof.
  destruct m as [t [e|a']]; cbn; intros [= ->].
  unfold mbind, task_bind. by destruct (k a).
Qed.
End TaskRuns.

Lemma updates_sleep s t : updates (Sleep s :: t) = updates t.
Proof. reflexivity. Qed.

Lemma updates_update_state s m t :
  updates (UpdateState s m :: t) = (s, m) :: updates t.
Proof. reflexivity. Qed.

Lemma truediv_nonzero a b :
  b ≠ 0 → truediv a b = inr (PrimFloat.div (float_of_int a) (float_of_int b)).
Proof. intros Hb. unfold truediv. by rewrite decide_False. Qed.

Lemma len_nonzero {A} (l : list A) : l ≠ [] → len l ≠ 0.
Proof. destruct l; [done | intros _; unfold len; cbn [length]; lia]. Qed.

Lemma progress_meta_lookup current total :
  progress_meta current total !! "current" = Some (VInt current) ∧
  progress_meta current total !! "total" = Some (VInt total) ∧
  progress_meta current total !! "percent" =
    Some (VFloat (float_mul_int
                    (PrimFloat.div (float_of_int current) (float_of_int total)) 100)).
Proof. unfold progress_meta. by simplify_map_eq. Qed.

(** One turn of the loop of [bulk_import], for a divisor that is not zero. *)
Lemma bulk_import_loop_cons self total item rest i processed :
  total ≠ 0 →
  Items.bulk_import_loop self total (item :: rest) i processed =
    (Sleep (VFloat 0.5) :: UpdateState "PROGRESS" (progress_meta (i + 1) total)
       :: events (Items.bulk_import_loop self total rest (i + 1) (processed + 1)),
     outcome (Items.bulk_import_loop self total rest (i + 1) (processed + 1))).
Proof.
  intros Ht. cbn [Items.bulk_import_loop]. unfold sleep, update_state.
  rewrite emit_bind, (truediv_nonzero _ _ Ht), lift_bind, emit_bind.
  reflexivity.
Qed.

(** The whole loop: it returns the counter advanced by the number of
    elements and publishes one update per element, numbered on from [i]. *)
Lemma bulk_import_loop_run self total items : ∀ i processed,
  total ≠ 0 →
  outcome (Items.bulk_import_loop self total items i processed)
    = inr (processed + len items) ∧
  updates (events (Items.bulk_import_loop self total items i processed))
    = (λ k : nat, ("PROGRESS", progress_meta (i + 1 + Z.of_nat k) total))
        <$> seq 0 (length items).
Proof.
  induction items as [|item rest IH]; intros i processed Ht.
  - split; [cbn; f_equal; unfold len; cbn; lia | reflexivity].
  - rewrite bulk_import_loop_cons by done.
    destruct (IH (i + 1) (processed + 1) Ht) as [Hout Hups].
    split.
    + cbn [outcome snd]. rewrite Hout. f_equal. unfold len. cbn [length]. lia.
    + cbn [events fst]. rewrite updates_sleep, updates_update_state.
      change (updates _) with
        (updates (events (Items.bulk_import_loop self total rest (i + 1) (processed + 1)))).
      rewrite Hups. cbn [length seq fmap list_fmap]. f_equal.
      * do 2 f_equal. lia.
      * rewrite <- seq_shift, <- list_fmap_compose. apply list_fmap_ext.
        intros _ k _. cbn. do 2 f_equal. lia.
Qed.

(** [bulk_import] never faults, whatever the list: the division is reached
    only inside the loop, hence only with a divisor of at least one. *)
Lemma bulk_import_returns self items :
  outcome (Items.bulk_import self items) =
    inr ({[ "task_id" := VStr (request_id self);
            "status" := VStr "completed";
            "total_items" := VInt (len items);
            "processed" := VInt (len items) ]} : pydict).
Proof.
  unfold Items.bulk_import.
  destruct items as [|item rest]; [reflexivity|].
  set (items := item :: rest).
  destruct (bulk_import_loop_run self (len items) items 0 0) as [Hout _].
  { by apply len_nonzero. }
  erewrite (proj2 (bind_returns _ _ _ Hout)).
  cbn. by rewrite Z.add_0_l.
Qed.

Lemma bulk_import_updates self items :
  updates (events (Items.bulk_import self items))
    = (λ k : nat, ("PROGRESS", progress_meta (Z.of_nat k + 1) (len items)))
        <$> seq 0 (length items).
Proof.
  unfold Items.bulk_import.
  destruct items as [|item rest]; [reflexivity|].
  set (items := item :: rest).
  destruct (bulk_import_loop_run self (len items) items 0 0) as [Hout Hups].
  { by apply len_nonzero. }
  erewrite (proj1 (bind_returns _ _ _ Hout)).
  cbn [events fst mret task_ret]. rewrite app_nil_r.
  change (updates _) with
    (updates (events (Items.bulk_import_loop self (len items) items 0 0))).
  rewrite Hups. apply list_fmap_ext. intros _ k _. do 2 f_equal. lia.
Qed.

(** The division the loop performs does fault on a zero divisor: were the
    loop entered with [total = 0], the run would end in the exception. *)
Lemma bulk_import_loop_zero_total self item rest i processed :
  Items.bulk_import_loop self 0 (item :: rest) i processed
    = ([Sleep (VFloat 0.5)], inl ZeroDivisionError).
Proof. reflexivity. Qed.

(** ** The worker *)

(** Submitting writes nothing to the backend. *)
Lemma delay_leaves_backend (call : Signature) (app : celery) :
  backend (delay call app).2 = backend app.
Proof. reflexivity. Qed.

Lemma get_task_meta_store task_id res state (app : celery) :
  get_task_meta (store_result task_id res state app) task_id
    = {| status := state; result := res |}.
Proof. unfold get_task_meta, store_result. cbn. by rewrite lookup_insert_eq. Qed.

(** A call that was not revoked and whose body returns ends under
    [SUCCESS] holding the returned mapping. *)
Lemma final_record_success app task_id call retval :
  task_id ∉ (revoked app).*1 →
  outcome (Core.run {| request_id := task_id |} call) = inr retval →
  final_record app task_id call = {| status := "SUCCESS"; result := PyDict retval |}.
Proof.
  intros Hrev Hout. unfold final_record, trace_task.
  rewrite bool_decide_eq_false_2 by done.
  rewrite Hout. apply get_task_meta_store.
Qed.

(** ** The handlers, step by step *)

Lemma ready_terminal (r : AsyncResult.t Signature) :
  AsyncResult.ready r = true ↔ terminal (AsyncResult.status r).
Proof.
  unfold AsyncResult.ready, AsyncResult.status, terminal, states.READY_STATES.
  rewrite bool_decide_eq_true, !elem_of_cons, elem_of_nil.
  unfold states.SUCCESS, states.FAILURE, states.REVOKED. tauto.
Qed.

Lemma not_ready_not_terminal (r : AsyncResult.t Signature) :
  AsyncResult.ready r = false ↔ ¬ terminal (AsyncResult.status r).
Proof. rewrite <- ready_terminal. by destruct (AsyncResult.ready r). Qed.

Lemma unknown_id_pending (app : celery) task_id :
  backend app !! task_id = None →
  get_task_meta app task_id = {| status := "PENDING"; result := PyNone |}.
Proof. intros H. unfold get_task_meta. by rewrite H. Qed.

Lemma pending_not_terminal : ¬ terminal "PENDING".
Proof. unfold terminal. intros [H|[H|H]]; discriminate H. Qed.

Lemma revoke_task_run task_id app :
  revoke_task task_id app =
    if AsyncResult.ready (AsyncResult.new task_id app)
    then (inl {| status_code := 400; detail := "Task already completed" |}, app)
    else (inr (revoked_body task_id), control_revoke task_id true app).
Proof.
  unfold revoke_task, mbind, handler_bind, celery_app.
  by destruct (AsyncResult.ready _).
Qed.

Lemma revoke_task_refused task_id app :
  terminal (status (get_task_meta app task_id)) →
  respond (revoke_task task_id) app =
    ({| code := 400; body := inl "Task already completed" |}, app).
Proof.
  intros H. unfold respond. rewrite revoke_task_run.
  by rewrite (proj2 (ready_terminal (AsyncResult.new task_id app)) H).
Qed.

Lemma revoke_task_accepted task_id app :
  ¬ terminal (status (get_task_meta app task_id)) →
  respond (revoke_task task_id) app =
    ({| code := 200; body := inr (revoked_body task_id) |},
     control_revoke task_id true app).
Proof.
  intros H. unfold respond. rewrite revoke_task_run.
  by rewrite (proj2 (not_ready_not_terminal (AsyncResult.new task_id app)) H).
Qed.

(** A status query always answers 200 and leaves the application as it
    was; the fields follow the three-way test of the handler. *)
Lemma get_task_status_run repr task_id app :
  let r := AsyncResult.new task_id app in
  get_task_status repr task_id app =
    (inr {| TaskStatusResponse.task_id := task_id;
            TaskStatusResponse.status := AsyncResult.status r;
            TaskStatusResponse.result :=
              if AsyncResult.ready r
              then (if AsyncResult.successful r then AsyncResult.result r else PyNone)
              else if bool_decide (AsyncResult.status r = "PROGRESS")
                   then AsyncResult.info r else PyNone;
            TaskStatusResponse.error :=
              if AsyncResult.ready r
              then (if AsyncResult.successful r then None
                    else Some (str repr (AsyncResult.result r)))
              else None |}, app).
Proof.
  intros r. unfold get_task_status, mbind, handler_bind, celery_app, mret, handler_ret.
  fold r. destruct (AsyncResult.ready r), (AsyncResult.successful r);
    try reflexivity; by destruct (bool_decide _).
Qed.

(** ** Status queries *)

(** Closes a conjunction of implications between equations on statuses and
    response fields, once the status has been settled. *)
Ltac by_status :=
  repeat split; intros;
  try reflexivity; try congruence; try discriminate; try tauto;
  repeat match goal with
         | H : _ ∨ _ |- _ => destruct H
         | H : ¬ _ |- _ => try (exfalso; apply H; tauto); clear H
         end;
  try congruence; try discriminate; try tauto.

(** C1 (as amended). A status query answers 200 with the backend's status
    for the identifier. [result] is populated only under SUCCESS (the stored
    return value) or PROGRESS (the progress mapping); [error] is populated
    exactly under FAILURE and REVOKED, the two terminal statuses that are not
    a success, with the string rendering of what is stored; under every other
    status both are [None]. *)
Theorem status_query_fields repr app task_id :
  let meta := get_task_meta app task_id in
  ∃ resp,
    respond (get_task_status repr task_id) app
      = ({| code := 200; body := inr resp |}, app) ∧
    TaskStatusResponse.task_id resp = task_id ∧
    TaskStatusResponse.status resp = status meta ∧
    (status meta = "SUCCESS" →
       TaskStatusResponse.result resp = result meta ∧
       TaskStatusResponse.error resp = None) ∧
    (status meta = "FAILURE" ∨ status meta = "REVOKED" →
       TaskStatusResponse.result resp = PyNone ∧
       TaskStatusResponse.error resp = Some (str repr (result meta))) ∧
    (status meta = "PROGRESS" →
       TaskStatusResponse.result resp = result meta ∧
       TaskStatusResponse.error resp = None) ∧
    (¬ terminal (status meta) → status meta ≠ "PROGRESS" →
       TaskStatusResponse.result resp = PyNone ∧
       TaskStatusResponse.error resp = None) ∧
    (TaskStatusResponse.result resp ≠ PyNone →
       status meta = "SUCCESS" ∨ status meta = "PROGRESS") ∧
    (TaskStatusResponse.error resp ≠ None →
       status meta = "FAILURE" ∨ status meta = "REVOKED").
Proof.
  intros meta. eexists. split.
  { unfold respond. rewrite get_task_status_run. reflexivity. }
  cbn [TaskStatusResponse.task_id TaskStatusResponse.status
       TaskStatusResponse.result TaskStatusResponse.error].
  unfold AsyncResult.ready, AsyncResult.successful, AsyncResult.info,
    AsyncResult.result, AsyncResult.status, AsyncResult.state,
    states.READY_STATES, states.SUCCESS, states.FAILURE, states.REVOKED,
    terminal.
  cbn [AsyncResult.app AsyncResult.id]. fold meta.
  generalize (status meta) (result meta). intros st res.
  destruct (decide (st = "SUCCESS")) as [->|Hs]; [cbn; by_status|].
  destruct (decide (st = "FAILURE")) as [->|Hf]; [cbn; by_status|].
  destruct (decide (st = "REVOKED")) as [->|Hr]; [cbn; by_status|].
  rewrite (bool_decide_eq_false_2 (st ∈ _))
    by (rewrite !elem_of_cons, elem_of_nil; tauto).
  destruct (decide (st = "PROGRESS")) as [->|Hp]; [cbn; by_status|].
  rewrite (bool_decide_eq_false_2 (st = "PROGRESS")) by done.
  by_status.
Qed.

(** C1, a run of the amended statement on a job that faulted: the error is
    the message of the stored exception and no result is given. *)
Lemma status_query_fields_witness :
  ∃ resp,
    respond (get_task_status sample_repr "job-0") app_failed
      = ({| code := 200; body := inr resp |}, app_failed) ∧
    TaskStatusResponse.status resp = "FAILURE" ∧
    TaskStatusResponse.result resp = PyNone ∧
    TaskStatusResponse.error resp = Some "Task failed".
Proof.
  destruct (status_query_fields sample_repr app_failed "job-0")
    as (resp & Hrun & _ & Hst & _ & Hfail & _).
  exists resp. split; [exact Hrun|]. split; [exact Hst|].
  apply Hfail. left. reflexivity.
Defined.

(** C1 as stated fails on a revoked job: the job is submitted, revoked while
    queued and then reached by a worker; the query reports REVOKED with
    [error] populated. *)
Lemma status_query_revoked_has_error :
  ∃ resp,
    body (respond (get_task_status sample_repr "job-0") app_revoked).1 = inr resp ∧
    TaskStatusResponse.status resp = "REVOKED" ∧
    TaskStatusResponse.result resp = PyNone ∧
    TaskStatusResponse.error resp = Some "revoked".
Proof. eexists. repeat split; vm_compute; reflexivity. Qed.

(** C2 (as amended). For an identifier the backend holds nothing for (never
    submitted, or expired), a status query answers 200 with status PENDING
    and neither result nor error, and changes nothing. *)
Theorem status_query_unknown_id repr app task_id :
  backend app !! task_id = None →
  respond (get_task_status repr task_id) app =
    ({| code := 200;
        body := inr {| TaskStatusResponse.task_id := task_id;
                       TaskStatusResponse.status := "PENDING";
                       TaskStatusResponse.result := PyNone;
                       TaskStatusResponse.error := None |} |}, app).
Proof.
  intros H. unfold respond. rewrite get_task_status_run.
  unfold AsyncResult.ready, AsyncResult.successful, AsyncResult.status,
    AsyncResult.state, AsyncResult.info, AsyncResult.result.
  cbn [AsyncResult.app AsyncResult.id].
  rewrite (unknown_id_pending _ _ H). reflexivity.
Qed.

Lemma status_query_unknown_id_witness :
  backend fresh_app !! "never-submitted" = None ∧
  respond (get_task_status sample_repr "never-submitted") fresh_app =
    ({| code := 200;
        body := inr {| TaskStatusResponse.task_id := "never-submitted";
                       TaskStatusResponse.status := "PENDING";
                       TaskStatusResponse.result := PyNone;
                       TaskStatusResponse.error := None |} |}, fresh_app).
Proof.
  split; [reflexivity|].
  apply (status_query_unknown_id sample_repr fresh_app "never-submitted").
  reflexivity.
Defined.

(** C2 as stated fails: an identifier that was never submitted is reported
    as PENDING, not as UNKNOWN. *)
Lemma status_query_never_submitted_is_pending :
  ∃ resp,
    body (respond (get_task_status sample_repr "never-submitted") fresh_app).1
      = inr resp ∧
    TaskStatusResponse.status resp = "PENDING" ∧
    String.eqb (TaskStatusResponse.status resp) "UNKNOWN" = false.
Proof. eexists. repeat split; vm_compute; reflexivity. Qed.

(** ** Cancellation *)

(** C3. A job whose status is terminal is refused with 400 and the message
    "Task already completed", and the application (backend record and
    broadcasts) is left as it was; a job in any other status is answered 200
    with [{task_id, status: "revoked"}] after one revoke broadcast with
    [terminate=True], the backend untouched. *)
Theorem revoke_by_status app task_id :
  let state := status (get_task_meta app task_id) in
  (terminal state →
     respond (revoke_task task_id) app =
       ({| code := 400; body := inl "Task already completed" |}, app)) ∧
  (¬ terminal state →
     ∃ app',
       respond (revoke_task task_id) app =
         ({| code := 200;
             body := inr ({[ "task_id" := VStr task_id;
                             "status" := VStr "revoked" ]} : pydict) |}, app') ∧
       backend app' = backend app ∧
       broker app' = broker app ∧
       revoked app' = revoked app ++ [(task_id, true)]).
Proof.
  intros state. split; intros H.
  - by apply revoke_task_refused.
  - eexists. split; [by apply revoke_task_accepted|]. done.
Qed.

Lemma revoke_by_status_witness :
  (respond (revoke_task "job-0") app_succeeded =
     ({| code := 400; body := inl "Task already completed" |}, app_succeeded)) ∧
  (∃ app',
     respond (revoke_task "job-0") app_submitted =
       ({| code := 200;
           body := inr ({[ "task_id" := VStr "job-0";
                           "status" := VStr "revoked" ]} : pydict) |}, app') ∧
     backend app' = backend app_submitted ∧
     broker app' = broker app_submitted ∧
     revoked app' = revoked app_submitted ++ [("job-0", true)]).
Proof.
  split.
  - apply (proj1 (revoke_by_status app_succeeded "job-0")).
    left. vm_compute. reflexivity.
  - apply (proj2 (revoke_by_status app_submitted "job-0")).
    vm_compute. intros [H|[H|H]]; discriminate H.
Defined.

(** C8. Revoking an identifier the backend holds nothing for is accepted:
    one revoke is broadcast and the answer is 200 with
    [{task_id, status: "revoked"}], the same answer as for any job that reads
    PENDING. *)
Theorem revoke_unknown_id app task_id :
  backend app !! task_id = None →
  respond (revoke_task task_id) app =
    ({| code := 200;
        body := inr ({[ "task_id" := VStr task_id;
                        "status" := VStr "revoked" ]} : pydict) |},
     control_revoke task_id true app) ∧
  revoked (control_revoke task_id true app) = revoked app ++ [(task_id, true)] ∧
  ∀ app' : celery,
    status (get_task_meta app' task_id) = "PENDING" →
    (respond (revoke_task task_id) app').1 = (respond (revoke_task task_id) app).1.
Proof.
  intros H.
  assert (Hacc : ∀ a : celery, status (get_task_meta a task_id) = "PENDING" →
            respond (revoke_task task_id) a =
              ({| code := 200; body := inr (revoked_body task_id) |},
               control_revoke task_id true a)).
  { intros a Ha. apply revoke_task_accepted. rewrite Ha. apply pending_not_terminal. }
  assert (Hp : status (get_task_meta app task_id) = "PENDING")
    by (by rewrite (unknown_id_pending _ _ H)).
  split; [by apply Hacc|]. split; [done|].
  intros app' Hp'. by rewrite !Hacc.
Qed.

Lemma revoke_unknown_id_witness :
  backend fresh_app !! "never-submitted" = None ∧
  respond (revoke_task "never-submitted") fresh_app =
    ({| code := 200;
        body := inr ({[ "task_id" := VStr "never-submitted";
                        "status" := VStr "revoked" ]} : pydict) |},
     control_revoke "never-submitted" true fresh_app).
Proof.
  split; [reflexivity|].
  apply (revoke_unknown_id fresh_app "never-submitted"). reflexivity.
Defined.

(** ** Submission *)

(** C5. Each of the four submission endpoints answers 200 with
    [{task_id, status}], where [task_id] is the identifier just drawn for the
    call and [status] is the literal ["PENDING"]; the call is appended to the
    broker queue and nothing is read from or written to the backend, so the
    answer is the same whatever the backend holds for that identifier. *)
Theorem submission_answers_pending (app : celery) :
  let task_id := uuid app (minted app) in
  let answer :=
    {| code := 200;
       body := inr {| TaskResponse.task_id := task_id;
                      TaskResponse.status := "PENDING" |} |} in
  let queued (call : Signature) : celery :=
    {| backend := backend app;
       broker := broker app ++ [(task_id, call)];
       revoked := revoked app;
       uuid := uuid app;
       minted := S (minted app) |} in
  (∀ request,
     respond (create_process_item_task request) app =
       (answer, queued (ProcessItem (ProcessItemRequest.item_id request)
                                    (ProcessItemRequest.operation request)))) ∧
  (∀ request,
     respond (create_bulk_import_task request) app =
       (answer, queued (BulkImport (BulkImportRequest.items request)))) ∧
  (∀ request,
     respond (create_process_file_task request) app =
       (answer, queued (ProcessFile (ProcessFileRequest.filename request)
                                    (ProcessFileRequest.operation request)))) ∧
  (∀ request,
     respond (create_cleanup_files_task request) app =
       (answer, queued (CleanupOldFiles (CleanupFilesRequest.max_age_days request)))).
Proof. intros task_id answer queued. repeat split. Qed.

(** The answer is PENDING even for a job the backend already holds under
    SUCCESS. *)
Example submission_answers_pending_over_success :
  let app := store_result "job-0" (PyDict ∅) "SUCCESS" fresh_app in
  status (get_task_meta app "job-0") = "SUCCESS" ∧
  body (respond (create_process_item_task validate_item_1) app).1 =
    inr {| TaskResponse.task_id := "job-0"; TaskResponse.status := "PENDING" |}.
Proof. split; reflexivity. Qed.

(** ** The task bodies under a worker *)

(** C6 (as amended). Run by a worker, the single-item job with [item_id=1],
    [operation="validate"] ends under SUCCESS with the result mapping
    [{task_id, item_id: 1, operation: "validate", status: "completed"}],
    [task_id] being the job's own identifier. *)
Theorem process_item_scenario app task_id :
  task_id ∉ (revoked app).*1 →
  final_record app task_id (ProcessItem 1 "validate") =
    {| status := "SUCCESS";
       result := PyDict {[ "task_id" := VStr task_id;
                           "item_id" := VInt 1;
                           "operation" := VStr "validate";
                           "status" := VStr "completed" ]} |}.
Proof. intros H. by apply final_record_success. Qed.

Lemma process_item_scenario_witness :
  ("job-0" ∉ (revoked fresh_app).*1) ∧
  final_record fresh_app "job-0" (ProcessItem 1 "validate") =
    {| status := "SUCCESS";
       result := PyDict {[ "task_id" := VStr "job-0";
                           "item_id" := VInt 1;
                           "operation" := VStr "validate";
                           "status" := VStr "completed" ]} |}.
Proof.
  assert (H : "job-0" ∉ (revoked fresh_app).*1) by (cbn; apply not_elem_of_nil).
  split; [exact H|]. exact (process_item_scenario fresh_app "job-0" H).
Defined.

(** C6 as stated fails: the result mapping is not the three-entry mapping
    the claim lists, it also holds the job identifier under ["task_id"]. *)
Lemma process_item_result_not_as_listed :
  ∃ r,
    final_record fresh_app "job-0" (ProcessItem 1 "validate")
      = {| status := "SUCCESS"; result := PyDict r |} ∧
    r !! "task_id" = Some (VStr "job-0") ∧
    listed_item_result !! "task_id" = None ∧
    r ≠ listed_item_result.
Proof.
  eexists. split; [apply final_record_success; [cbn; apply not_elem_of_nil | reflexivity]|].
  split; [reflexivity|]. split; [reflexivity|].
  intros E. apply (f_equal (λ d : pydict, d !! "task_id")) in E.
  vm_compute in E. discriminate E.
Qed.

(** The scenario through the endpoints: submit, let a worker run, query. *)
Example single_item_end_to_end :
  respond (get_task_status sample_repr "job-0") app_succeeded =
    ({| code := 200;
        body := inr {| TaskStatusResponse.task_id := "job-0";
                       TaskStatusResponse.status := "SUCCESS";
                       TaskStatusResponse.result :=
                         PyDict {[ "task_id" := VStr "job-0";
                                   "item_id" := VInt 1;
                                   "operation" := VStr "validate";
                                   "status" := VStr "completed" ]};
                       TaskStatusResponse.error := None |} |}, app_succeeded).
Proof. vm_compute. reflexivity. Qed.

(** C7. Run by a worker, a bulk import over [N] elements ends under SUCCESS
    and its result mapping reports [total_items = N] and [processed = N]. *)
Theorem bulk_import_final_counts app task_id items :
  task_id ∉ (revoked app).*1 →
  ∃ r,
    final_record app task_id (BulkImport items)
      = {| status := "SUCCESS"; result := PyDict r |} ∧
    r !! "total_items" = Some (VInt (len items)) ∧
    r !! "processed" = Some (VInt (len items)).
Proof.
  intros H. eexists. split.
  - apply final_record_success; [done|]. apply bulk_import_returns.
  - by simplify_map_eq.
Qed.

Lemma bulk_import_final_counts_witness :
  ("job-0" ∉ (revoked fresh_app).*1) ∧
  ∃ r,
    final_record fresh_app "job-0" (BulkImport three_items)
      = {| status := "SUCCESS"; result := PyDict r |} ∧
    r !! "total_items" = Some (VInt 3) ∧
    r !! "processed" = Some (VInt 3).
Proof.
  assert (H : "job-0" ∉ (revoked fresh_app).*1) by (cbn; apply not_elem_of_nil).
  split; [exact H|]. exact (bulk_import_final_counts fresh_app "job-0" three_items H).
Defined.

(** C9. On the empty list the body publishes nothing (no effect at all, so
    no division is performed), returns without a fault, and a worker leaves
    the job under SUCCESS with [total_items = 0] and [processed = 0]. *)
Theorem bulk_import_empty_list app task_id :
  task_id ∉ (revoked app).*1 →
  events (Items.bulk_import {| request_id := task_id |} []) = [] ∧
  ∃ r,
    outcome (Items.bulk_import {| request_id := task_id |} []) = inr r ∧
    final_record app task_id (BulkImport [])
      = {| status := "SUCCESS"; result := PyDict r |} ∧
    r !! "total_items" = Some (VInt 0) ∧
    r !! "processed" = Some (VInt 0).
Proof.
  intros H. split; [reflexivity|]. eexists. split; [reflexivity|]. split.
  - by apply final_record_success.
  - by simplify_map_eq.
Qed.

Lemma bulk_import_empty_list_witness :
  ("job-0" ∉ (revoked fresh_app).*1) ∧
  events (Items.bulk_import {| request_id := "job-0" |} []) = [] ∧
  ∃ r,
    outcome (Items.bulk_import {| request_id := "job-0" |} []) = inr r ∧
    final_record fresh_app "job-0" (BulkImport [])
      = {| status := "SUCCESS"; result := PyDict r |} ∧
    r !! "total_items" = Some (VInt 0) ∧
    r !! "processed" = Some (VInt 0).
Proof.
  assert (H : "job-0" ∉ (revoked fresh_app).*1) by (cbn; apply not_elem_of_nil).
  split; [exact H|]. exact (bulk_import_empty_list fresh_app "job-0" H).
Defined.

(** C10. The file job takes any operation string: whatever the filename and
    the operation, the body sleeps once (two seconds when the operation is
    not one of the four with a listed time) and returns, and a worker leaves
    the job under SUCCESS with
    [{task_id, filename, operation, status: "completed"}], the operation
    echoed as given; the endpoint queues the operation of the request as it
    is. *)
Theorem process_file_any_operation app task_id filename operation :
  task_id ∉ (revoked app).*1 →
  final_record app task_id (ProcessFile filename operation) =
    {| status := "SUCCESS";
       result := PyDict {[ "task_id" := VStr task_id;
                           "filename" := VStr filename;
                           "operation" := VStr operation;
                           "status" := VStr "completed" ]} |} ∧
  (Files.processing_times !! operation = None →
     events (Files.process_file {| request_id := task_id |} filename operation)
       = [Sleep (VInt 2)]) ∧
  code (respond (create_process_file_task
                   {| ProcessFileRequest.filename := filename;
                      ProcessFileRequest.operation := operation |}) app).1 = 200 ∧
  broker (respond (create_process_file_task
                     {| ProcessFileRequest.filename := filename;
                        ProcessFileRequest.operation := operation |}) app).2
    = broker app ++ [(uuid app (minted app), ProcessFile filename operation)].
Proof.
  intros H. split; [by apply final_record_success|]. split; [|done].
  intros Hop. unfold Files.process_file, dict_get. rewrite Hop. reflexivity.
Qed.

Lemma process_file_any_operation_witness :
  ("job-0" ∉ (revoked fresh_app).*1) ∧
  Files.processing_times !! "shred" = None ∧
  final_record fresh_app "job-0" (ProcessFile "doc.pdf" "shred") =
    {| status := "SUCCESS";
       result := PyDict {[ "task_id" := VStr "job-0";
                           "filename" := VStr "doc.pdf";
                           "operation" := VStr "shred";
                           "status" := VStr "completed" ]} |} ∧
  events (Files.process_file {| request_id := "job-0" |} "doc.pdf" "shred")
    = [Sleep (VInt 2)].
Proof.
  assert (H : "job-0" ∉ (revoked fresh_app).*1) by (cbn; apply not_elem_of_nil).
  assert (Hop : Files.processing_times !! "shred" = None) by reflexivity.
  destruct (process_file_any_operation fresh_app "job-0" "doc.pdf" "shred" H)
    as (Hrec & Hev & _).
  split; [exact H|]. split; [exact Hop|]. split; [exact Hrec|exact (Hev Hop)].
Defined.

(** ** Progress of a bulk import *)




(** The two values in question: 33.333333333333329 and
    33.333333333333336. *)
Example percent_one_of_three :
  float_mul_int (PrimFloat.div (float_of_int 1) (float_of_int 3)) 100
    = 0x1.0aaaaaaaaaaaap+5%float ∧
  truediv (100 * 1) 3 = inr 0x1.0aaaaaaaaaaabp+5%float.
Proof. split; vm_compute; reflexivity. Qed.

(** The last update of a run carries exactly [100.0], for the sample list. *)
Example percent_last_of_three :
  (λ sm : string * pydict, sm.2 !! "percent") <$>
    last (updates (events (Items.bulk_import {| request_id := "job-0" |} three_items)))
  = Some (Some (VFloat 100)).
Proof. vm_compute. reflexivity. Qed.

(** Up to rounding the equation does hold on every list of at most 256
    elements: each published [percent] is within [2^-40], relatively, of
    [100 * current / total]. *)
Lemma close_upto_256 : close_upto 256 = true.
Proof. vm_compute. reflexivity. Qed.

Lemma bulk_import_percent_close self items state meta :
  (length items ≤ 256)%nat →
  (state, meta) ∈ updates (events (Items.bulk_import self items)) →
  percent_is_close meta = true.
Proof.
  intros Hlen Hin. rewrite bulk_import_updates in Hin.
  apply list_elem_of_fmap in Hin as (k & [= -> ->] & Hk).
  apply list_elem_of_In, in_seq in Hk.
  pose proof close_upto_256 as Hall. unfold close_upto in Hall.
  rewrite forallb_forall in Hall.
  specialize (Hall (length items)).
  rewrite forallb_forall in Hall.
  unfold len. apply Hall; apply in_seq; lia.
Qed.

(** ** The configuration: connection URLs *)

Lemma append_nil (b : string) : "" +:+ b = b.
Proof. reflexivity. Qed.

Lemma append_cons (x : ascii) (a b : string) :
  String x a +:+ b = String x (a +:+ b).
Proof. reflexivity. Qed.

Lemma append_assoc (a b c : string) : (a +:+ b) +:+ c = a +:+ (b +:+ c).
Proof.
  induction a as [|x a IH]; [reflexivity|].
  by rewrite !append_cons, IH.
Qed.

Lemma fmt_inj (x y : Z) : Config.fmt x = Config.fmt y → x = y.
Proof. unfold Config.fmt. apply (inj pretty). Qed.

(** Two strings built on the same prefix are equal exactly when what
    follows is. *)
Lemma same_prefix (p a b : string) : p +:+ a = p +:+ b ↔ a = b.
Proof. split; [apply (inj (String.app p)) | by intros ->]. Qed.

(** X1. The Redis cache, the Celery broker and the Celery result backend are
    addressed on one server with one credential: two of the three URLs are
    equal exactly when their database indices are. *)
Theorem redis_urls_differ_by_index (s : Config.Settings) :
  (Config.CELERY_BROKER_URL s = Config.CELERY_RESULT_BACKEND s
     ↔ Config.CELERY_BROKER_DB s = Config.CELERY_RESULT_DB s) ∧
  (Config.REDIS_URL s = Config.CELERY_BROKER_URL s
     ↔ Config.REDIS_DB s = Config.CELERY_BROKER_DB s) ∧
  (Config.REDIS_URL s = Config.CELERY_RESULT_BACKEND s
     ↔ Config.REDIS_DB s = Config.CELERY_RESULT_DB s).
Proof.
  unfold Config.CELERY_BROKER_URL, Config.CELERY_RESULT_BACKEND, Config.REDIS_URL.
  destruct (Str.truthy (Config.REDIS_PASSWORD s));
    repeat split; rewrite ?same_prefix;
    first [ apply fmt_inj | by intros -> ].
Qed.

(** X2. The password is put into the URL as it is: a password with an ["@"] in
    it gives the URL of a shorter password on another host. *)
Theorem redis_password_not_escaped (s : Config.Settings) (password rest host : string) :
  password ≠ "" →
  Config.REDIS_URL (with_redis s (password +:+ "@" +:+ rest) host)
    = Config.REDIS_URL (with_redis s password (rest +:+ "@" +:+ host)).
Proof.
  intros Hne. destruct password as [|c password]; [done|].
  unfold Config.REDIS_URL, with_redis.
  cbn [Config.REDIS_PASSWORD Config.REDIS_HOST Config.REDIS_PORT Config.REDIS_DB].
  change (Str.truthy (String c password +:+ _)) with true.
  change (Str.truthy (String c password)) with true. cbn match.
  by rewrite !append_assoc.
Qed.

Lemma redis_password_not_escaped_witness :
  "p" ≠ "" ∧
  Config.REDIS_URL (with_redis Config.defaults "p@ss" "redis")
    = Config.REDIS_URL (with_redis Config.defaults "p" "ss@redis") ∧
  Config.REDIS_URL (with_redis Config.defaults "p@ss" "redis")
    = "redis://:p@ss@redis:6379/0".
Proof.
  assert (H : "p" ≠ "") by discriminate.
  split; [exact H|]. split; [|reflexivity].
  exact (redis_password_not_escaped Config.defaults "p" "ss" "redis" H).
Defined.

(** X3. The four database URLs: the asynchronous and the synchronous one never
    coincide, and the test URL is the main one exactly when the two database
    names are the same. *)
Theorem database_urls (s : Config.Settings) :
  Config.DATABASE_URL s ≠ Config.SYNC_DATABASE_URL s ∧
  Config.TEST_DATABASE_URL s ≠ Config.SYNC_TEST_DATABASE_URL s ∧
  (Config.TEST_DATABASE_URL s = Config.DATABASE_URL s
     ↔ Config.POSTGRES_TEST_DB s = Config.POSTGRES_DB s) ∧
  (Config.SYNC_TEST_DATABASE_URL s = Config.SYNC_DATABASE_URL s
     ↔ Config.POSTGRES_TEST_DB s = Config.POSTGRES_DB s).
Proof.
  unfold Config.DATABASE_URL, Config.SYNC_DATABASE_URL,
    Config.TEST_DATABASE_URL, Config.SYNC_TEST_DATABASE_URL.
  repeat split; try discriminate; rewrite ?same_prefix; by intros ->.
Qed.

(** ** The configuration: the list of CORS origins *)

Lemma split_pieces_count sep s :
  length (Str.split_pieces sep s).2 = Str.count sep s.
Proof.
  induction s as [|c s IH]; [reflexivity|]. cbn.
  destruct (Str.split_pieces sep s) as [piece pieces].
  case_bool_decide; cbn in *; lia.
Qed.

Lemma split_length sep s : length (Str.split sep s) = S (Str.count sep s).
Proof.
  unfold Str.split. pose proof (split_pieces_count sep s) as H.
  destruct (Str.split_pieces sep s). cbn in *. lia.
Qed.

Lemma split_pieces_no_sep sep s :
  Str.count sep (Str.split_pieces sep s).1 = 0%nat ∧
  Forall (λ x, Str.count sep x = 0%nat) (Str.split_pieces sep s).2.
Proof.
  induction s as [|c s [IH1 IH2]]; [by split|]. cbn.
  destruct (Str.split_pieces sep s) as [piece pieces]. cbn in *.
  case_bool_decide as Hc; cbn.
  - split; [done|]. by constructor.
  - split; [|done]. by rewrite bool_decide_eq_false_2.
Qed.

Lemma split_no_sep sep s : Forall (λ x, Str.count sep x = 0%nat) (Str.split sep s).
Proof.
  unfold Str.split. pose proof (split_pieces_no_sep sep s) as [H1 H2].
  destruct (Str.split_pieces sep s). by constructor.
Qed.

Lemma lstrip_count c s : (Str.count c (Str.lstrip s) ≤ Str.count c s)%nat.
Proof.
  induction s as [|x s IH]; [done|]. cbn [Str.lstrip].
  destruct (Str.isspace x); [cbn; lia | done].
Qed.

Lemma rstrip_count c s : (Str.count c (Str.rstrip s) ≤ Str.count c s)%nat.
Proof.
  induction s as [|x s IH]; [done|]. cbn [Str.rstrip].
  destruct (Str.rstrip s) as [|y kept].
  - destruct (Str.isspace x); cbn in *; lia.
  - cbn in *. lia.
Qed.

Lemma strip_count c s : (Str.count c (Str.strip s) ≤ Str.count c s)%nat.
Proof.
  unfold Str.strip. etrans; [apply rstrip_count | apply lstrip_count].
Qed.

Lemma lstrip_head s :
  match Str.lstrip s with
  | EmptyString => True
  | String c _ => Str.isspace c = false
  end.
Proof.
  induction s as [|x s IH]; [done|]. cbn [Str.lstrip].
  destruct (Str.isspace x) eqn:Hx; [exact IH | exact Hx].
Qed.

Lemma rstrip_last s :
  from_option Str.isspace false (Str.last_char (Str.rstrip s)) = false.
Proof.
  induction s as [|x s IH]; [done|]. cbn [Str.rstrip].
  destruct (Str.rstrip s) as [|y kept].
  - destruct (Str.isspace x) eqn:Hx; [done | cbn; exact Hx].
  - exact IH.
Qed.

Lemma rstrip_head x s :
  Str.isspace x = false → ∃ kept, Str.rstrip (String x s) = String x kept.
Proof.
  intros Hx. cbn [Str.rstrip]. destruct (Str.rstrip s); rewrite ?Hx; eauto.
Qed.

(** What [strip] returns neither starts nor ends with whitespace. *)
Lemma strip_trimmed s : Str.trimmed (Str.strip s) = true.
Proof.
  unfold Str.strip. pose proof (lstrip_head s) as Hhead.
  pose proof (rstrip_last (Str.lstrip s)) as Hlast.
  destruct (Str.lstrip s) as [|x rest]; [done|].
  destruct (rstrip_head x rest Hhead) as [kept Hk]. rewrite Hk in Hlast |- *.
  unfold Str.trimmed. by rewrite Hhead, Hlast.
Qed.

Lemma rstrip_id s :
  from_option Str.isspace false (Str.last_char s) = false → Str.rstrip s = s.
Proof.
  induction s as [|x s IH]; [done|]. intros H. cbn [Str.rstrip].
  destruct s as [|y s].
  - cbn in *. by rewrite H.
  - rewrite IH by exact H. reflexivity.
Qed.

(** [strip] leaves alone a string that neither starts nor ends with
    whitespace. *)
Lemma strip_id s : Str.trimmed s = true → Str.strip s = s.
Proof.
  unfold Str.trimmed, Str.strip. destruct s as [|x s]; [done|].
  intros [Hx Hl]%andb_true_iff.
  apply negb_true_iff in Hx, Hl. cbn [Str.lstrip]. rewrite Hx.
  by apply rstrip_id.
Qed.

Lemma split_pieces_append sep x s :
  Str.count sep x = 0%nat →
  Str.split_pieces sep (x +:+ String sep s)
    = (x, (Str.split_pieces sep s).1 :: (Str.split_pieces sep s).2).
Proof.
  induction x as [|c x IH]; intros Hx.
  - rewrite append_nil. cbn. rewrite bool_decide_eq_true_2 by done.
    by destruct (Str.split_pieces sep s).
  - rewrite append_cons. cbn in Hx |- *. case_bool_decide; [discriminate Hx|].
    rewrite IH by exact Hx. reflexivity.
Qed.

Lemma split_pieces_whole sep x :
  Str.count sep x = 0%nat → Str.split_pieces sep x = (x, []).
Proof.
  induction x as [|c x IH]; intros Hx; [done|].
  cbn in Hx |- *. case_bool_decide; [discriminate Hx|].
  rewrite IH by exact Hx. reflexivity.
Qed.

(** Splitting what [join] built gives the pieces back, when none of them
    holds the separator. *)
Lemma split_join sep l :
  l ≠ [] → Forall (λ x, Str.count sep x = 0%nat) l →
  Str.split sep (Str.join sep l) = l.
Proof.
  intros Hne Hall. unfold Str.split.
  induction Hall as [|x rest Hx Hrest IH]; [done|].
  destruct rest as [|y rest].
  - cbn. by rewrite split_pieces_whole.
  - change (Str.join sep (x :: y :: rest))
      with (x +:+ String sep (Str.join sep (y :: rest))).
    rewrite split_pieces_append by exact Hx.
    specialize (IH ltac:(done)).
    destruct (Str.split_pieces sep (Str.join sep (y :: rest))) as [p ps].
    cbn. by rewrite IH.
Qed.

Lemma join_startswith sep c l x :
  head l = Some x → Str.startswith x c = false → c ≠ sep →
  Str.startswith (Str.join sep l) c = false.
Proof.
  destruct l as [|y rest]; [done|]. intros [= ->] Hx Hc.
  destruct rest as [|z rest]; [exact Hx|].
  change (Str.join sep (x :: z :: rest))
    with (x +:+ String sep (Str.join sep (z :: rest))).
  destruct x as [|a x]; [|by rewrite append_cons].
  rewrite append_nil. cbn. by rewrite bool_decide_eq_false_2.
Qed.

(** X4. A string that does not start with a bracket is cut at every comma and
    each piece is stripped: the list has one element more than the string
    has commas (so at least one: the empty string gives one empty origin),
    and no element starts or ends with whitespace or holds a comma. *)
Theorem cors_origins_from_commas json_loads (s : string) :
  Str.startswith s "["%char = false →
  ∃ origins,
    Config.assemble_cors_origins json_loads (Config.AnyStr s)
      = inr (Config.AnyList (Config.AnyStr <$> origins)) ∧
    length origins = S (Str.count ","%char s) ∧
    Forall (λ x, Str.trimmed x = true ∧ Str.count ","%char x = 0%nat) origins.
Proof.
  intros Hs. exists (Str.strip <$> Str.split ","%char s).
  unfold Config.assemble_cors_origins. rewrite Hs. cbn [negb].
  split; [by rewrite <- list_fmap_compose|]. split.
  - by rewrite length_fmap, split_length.
  - apply Forall_fmap. eapply Forall_impl; [apply split_no_sep|].
    intros x Hx. unfold compose. split; [apply strip_trimmed|].
    pose proof (strip_count ","%char x) as Hle. rewrite Hx in Hle.
    by apply Nat.le_0_r in Hle.
Qed.

Lemma cors_origins_from_commas_witness :
  Str.startswith " a.example, b.example ,," "["%char = false ∧
  Config.assemble_cors_origins sample_json_loads
      (Config.AnyStr " a.example, b.example ,,")
    = inr (Config.AnyList [Config.AnyStr "a.example"; Config.AnyStr "b.example";
                           Config.AnyStr ""; Config.AnyStr ""]) ∧
  ∃ origins,
    Config.assemble_cors_origins sample_json_loads (Config.AnyStr "")
      = inr (Config.AnyList (Config.AnyStr <$> origins)) ∧
    length origins = 1%nat.
Proof.
  split; [reflexivity|]. split; [reflexivity|].
  destruct (cors_origins_from_commas sample_json_loads "" eq_refl)
    as (origins & H & Hlen & _).
  exists origins. split; [exact H | exact Hlen].
Defined.

(** X5. Round trip: a non-empty list of origins, none with a comma or with
    whitespace at either end, the first not starting with a bracket, is read
    back from its comma-joined form. *)
Theorem cors_origins_round_trip json_loads (origins : list string) :
  origins ≠ [] →
  Forall (λ x, Str.trimmed x = true ∧ Str.count ","%char x = 0%nat) origins →
  (∀ x, head origins = Some x → Str.startswith x "["%char = false) →
  Config.assemble_cors_origins json_loads
      (Config.AnyStr (Str.join ","%char origins))
    = inr (Config.AnyList (Config.AnyStr <$> origins)).
Proof.
  intros Hne Hall Hhead. unfold Config.assemble_cors_origins.
  destruct origins as [|x rest] eqn:E; [done|]. rewrite <- E in *.
  rewrite (join_startswith ","%char "["%char origins x); [|by rewrite E|
    apply Hhead; by rewrite E | done].
  cbn [negb]. rewrite split_join; [|done|].
  - do 2 f_equal. apply Forall_fmap_ext.
    eapply Forall_impl; [exact Hall|]. intros y [Hy _]. cbn. f_equal.
    by apply strip_id.
  - eapply Forall_impl; [exact Hall|]. by intros y [_ Hy].
Qed.

Lemma cors_origins_round_trip_witness :
  Str.join ","%char ["http://localhost:3000"; "https://app.example"]
    = "http://localhost:3000,https://app.example" ∧
  Config.assemble_cors_origins sample_json_loads
      (Config.AnyStr (Str.join ","%char ["http://localhost:3000"; "https://app.example"]))
    = inr (Config.AnyList (Config.AnyStr <$> ["http://localhost:3000"; "https://app.example"])).
Proof.
  split; [reflexivity|].
  apply (cors_origins_round_trip sample_json_loads
           ["http://localhost:3000"; "https://app.example"]).
  - discriminate.
  - repeat constructor.
  - intros x [= <-]. reflexivity.
Defined.

(** ** The four task bodies *)




Lemma processing_times_lookup operation :
  Files.processing_times !! operation =
    if decide (operation = "analyze") then Some 2
    else if decide (operation = "scan") then Some 3
    else if decide (operation = "convert") then Some 5
    else if decide (operation = "compress") then Some 4
    else None.
Proof.
  unfold Files.processing_times.
  repeat (case_decide; [by simplify_map_eq|]). by simplify_map_eq.
Qed.

(** X7. The file job sleeps exactly once, for 2, 3, 5 or 4 seconds when the
    operation is analyze, scan, convert or compress and for 2 seconds for any
    other string: always between 2 and 5 seconds. It publishes no update. *)
Theorem process_file_sleeps_once self filename operation :
  ∃ seconds,
    events (Files.process_file self filename operation) = [Sleep (VInt seconds)] ∧
    2 ≤ seconds ≤ 5 ∧
    seconds =
      (if decide (operation = "analyze") then 2
       else if decide (operation = "scan") then 3
       else if decide (operation = "convert") then 5
       else if decide (operation = "compress") then 4
       else 2).
Proof.
  eexists. split; [reflexivity|]. unfold dict_get.
  rewrite processing_times_lookup. repeat case_decide; cbn; lia.
Qed.

(** The effects of the loop of [bulk_import], turn by turn. *)
Lemma bulk_import_loop_events self total items : ∀ i processed,
  total ≠ 0 →
  events (Items.bulk_import_loop self total items i processed)
    = concat ((λ k : nat,
                 [Sleep (VFloat 0.5);
                  UpdateState "PROGRESS" (progress_meta (i + 1 + Z.of_nat k) total)])
              <$> seq 0 (length items)).
Proof.
  induction items as [|item rest IH]; intros i processed Ht; [reflexivity|].
  rewrite bulk_import_loop_cons by done. cbn [events fst length seq fmap list_fmap concat].
  change (fst ?p) with (events p).
  rewrite (IH (i + 1) (processed + 1) Ht).
  rewrite <- seq_shift, <- list_fmap_compose. cbn [app].
  rewrite Z.add_0_r. do 3 f_equal. apply list_fmap_ext. intros _ k _. cbn.
  do 4 f_equal. lia.
Qed.

Lemma bulk_import_events self items :
  events (Items.bulk_import self items)
    = concat (bulk_import_turn (len items) <$> seq 0 (length items)).
Proof.
  unfold Items.bulk_import.
  destruct items as [|item rest]; [reflexivity|].
  set (items := item :: rest).
  assert (Ht : len items ≠ 0) by (by apply len_nonzero).
  destruct (bulk_import_loop_run self (len items) items 0 0 Ht) as [Hout _].
  erewrite (proj1 (bind_returns _ _ _ Hout)).
  cbn [events fst mret task_ret]. rewrite app_nil_r.
  change (fst ?p) with (events p).
  rewrite bulk_import_loop_events by done.
  f_equal. apply list_fmap_ext. intros _ k _. unfold bulk_import_turn.
  do 4 f_equal. lia.
Qed.

(** X8. A bulk import over [N] elements has [2 * N] effects, in turns of a
    sleep of half a second followed by one PROGRESS update: the update of an
    element is published after the sleep for it and before the next one
    starts, and the run sleeps [N] times. *)
Theorem bulk_import_sleeps_then_reports self items :
  let run := events (Items.bulk_import self items) in
  length run = (2 * length items)%nat ∧
  ∀ k : nat, (k < length items)%nat →
    run !! (2 * k)%nat = Some (Sleep (VFloat 0.5)) ∧
    run !! (2 * k + 1)%nat
      = Some (UpdateState "PROGRESS" (progress_meta (Z.of_nat k + 1) (len items))).
Proof.
  intros run. subst run. rewrite bulk_import_events.
  generalize (len items). intros total.
  induction (length items) as [|n IH]; [split; [reflexivity | intros k Hk; exfalso; lia]|].
  rewrite seq_S, fmap_app, concat_app. cbn [fmap list_fmap concat app].
  destruct IH as [Hlen IH]. split.
  - rewrite length_app, Hlen. cbn. lia.
  - intros k Hk. destruct (decide (k = n)) as [->|Hne].
    + split.
      * rewrite lookup_app_r by lia. rewrite Hlen.
        by replace (2 * n - 2 * n)%nat with 0%nat by lia.
      * rewrite lookup_app_r by lia. rewrite Hlen.
        by replace (2 * n + 1 - 2 * n)%nat with 1%nat by lia.
    + rewrite !lookup_app_l by lia. apply IH. lia.
Qed.

(** ** Progress as a client sees it *)

Lemma publish_backend task_id (app : celery) e other :
  other ≠ task_id →
  backend (publish task_id app e) !! other = backend app !! other.
Proof.
  intros Hne. destruct e; [done|]. cbn. by rewrite lookup_insert_ne.
Qed.

Lemma foldl_publish_turns task_id (app : celery) total n :
  get_task_meta
    (foldl (publish task_id) app (concat (bulk_import_turn total <$> seq 0 (S n))))
    task_id
  = {| status := "PROGRESS"; result := PyDict (progress_meta (Z.of_nat n + 1) total) |}.
Proof.
  rewrite seq_S, fmap_app, concat_app, foldl_app.
  cbn [fmap list_fmap concat Datatypes.app foldl bulk_import_turn publish].
  apply get_task_meta_store.
Qed.

Lemma take_turns total n k :
  (k ≤ n)%nat →
  take (2 * k) (concat (bulk_import_turn total <$> seq 0 n))
    = concat (bulk_import_turn total <$> seq 0 k).
Proof.
  intros Hk. replace n with (k + (n - k))%nat by lia.
  rewrite seq_app, fmap_app, concat_app.
  assert (Hlen : length (concat (bulk_import_turn total <$> seq 0 k)) = (2 * k)%nat).
  { clear. induction k as [|k IH]; [done|].
    rewrite seq_S, fmap_app, concat_app, length_app, IH. cbn. lia. }
  rewrite take_app_length'; [done | by rewrite Hlen].
Qed.

(** X9. While a bulk import over [N] elements runs, once the update of element
    [k + 1] is out a status query answers PROGRESS with the mapping
    [{current: k + 1, total: N, percent}] in [result] and no error. *)
Theorem bulk_import_progress_polled repr app task_id items (k : nat) :
  (k < length items)%nat →
  let app_k := during app task_id (BulkImport items) (2 * (k + 1)) in
  respond (get_task_status repr task_id) app_k =
    ({| code := 200;
        body := inr {| TaskStatusResponse.task_id := task_id;
                       TaskStatusResponse.status := "PROGRESS";
                       TaskStatusResponse.result :=
                         PyDict (progress_meta (Z.of_nat k + 1) (len items));
                       TaskStatusResponse.error := None |} |}, app_k) ∧
  progress_meta (Z.of_nat k + 1) (len items) !! "current"
    = Some (VInt (Z.of_nat k + 1)) ∧
  progress_meta (Z.of_nat k + 1) (len items) !! "total"
    = Some (VInt (len items)).
Proof.
  intros Hk app_k. split; [|split; apply progress_meta_lookup].
  assert (Hmeta : get_task_meta app_k task_id =
            {| status := "PROGRESS";
               result := PyDict (progress_meta (Z.of_nat k + 1) (len items)) |}).
  { subst app_k. unfold during. cbn [Core.run]. rewrite bulk_import_events.
    rewrite take_turns by lia. replace (k + 1)%nat with (S k) by lia.
    apply foldl_publish_turns. }
  unfold respond. rewrite get_task_status_run.
  unfold AsyncResult.ready, AsyncResult.successful, AsyncResult.status,
    AsyncResult.state, AsyncResult.info, AsyncResult.result.
  cbn [AsyncResult.app AsyncResult.id]. rewrite Hmeta. reflexivity.
Qed.

Lemma bulk_import_progress_polled_witness :
  (1 < length three_items)%nat ∧
  ∃ resp,
    body (respond (get_task_status sample_repr "job-0")
            (during fresh_app "job-0" (BulkImport three_items) (2 * (1 + 1)))).1
      = inr resp ∧
    TaskStatusResponse.status resp = "PROGRESS" ∧
    TaskStatusResponse.result resp = PyDict (progress_meta 2 3) ∧
    TaskStatusResponse.error resp = None.
Proof.
  assert (H : (1 < length three_items)%nat) by (cbn; lia).
  split; [exact H|].
  destruct (bulk_import_progress_polled sample_repr fresh_app "job-0" three_items 1 H)
    as [Hrun _].
  cbv zeta in Hrun. eexists. rewrite Hrun. repeat split.
Defined.

Lemma percent_scale_upto_256 : percent_scale_upto 256 = true.
Proof. vm_compute. reflexivity. Qed.

Lemma percent_scale_upto_all bound :
  percent_scale_upto bound = true →
  ∀ n : nat, (1 ≤ n ≤ bound)%nat →
    PrimFloat.ltb 0 (percent_of 1 (Z.of_nat n)) = true ∧
    (∀ k : nat, (1 ≤ k < n)%nat →
       PrimFloat.ltb (percent_of (Z.of_nat k) (Z.of_nat n))
                     (percent_of (Z.of_nat k + 1) (Z.of_nat n)) = true) ∧
    PrimFloat.eqb (percent_of (Z.of_nat n) (Z.of_nat n)) 100 = true.
Proof.
  unfold percent_scale_upto. intros Hall n Hn.
  rewrite forallb_forall in Hall.
  specialize (Hall n ltac:(apply in_seq; lia)).
  apply andb_true_iff in Hall as [Hall Hlast].
  apply andb_true_iff in Hall as [Hfirst Hstep].
  rewrite forallb_forall in Hstep.
  split; [exact Hfirst|]. split; [|exact Hlast].
  intros k Hk. apply Hstep. apply in_seq. lia.
Qed.

Lemma percent_scale_at (n : nat) :
  (1 ≤ n ≤ 256)%nat →
  PrimFloat.ltb 0 (percent_of 1 (Z.of_nat n)) = true ∧
  (∀ k : nat, (1 ≤ k < n)%nat →
     PrimFloat.ltb (percent_of (Z.of_nat k) (Z.of_nat n))
                   (percent_of (Z.of_nat k + 1) (Z.of_nat n)) = true) ∧
  PrimFloat.eqb (percent_of (Z.of_nat n) (Z.of_nat n)) 100 = true.
Proof. exact (percent_scale_upto_all 256 percent_scale_upto_256 n). Qed.

(** X10. On lists of at most 256 elements the published [percent] is a proper
    scale: above zero on the first update, strictly increasing from one
    update to the next, and exactly [100.0] on the last. *)
Theorem bulk_import_percent_scale self items :
  items ≠ [] → (length items ≤ 256)%nat →
  let N := len items in
  let published := updates (events (Items.bulk_import self items)) in
  (∀ (k : nat) state meta,
     published !! k = Some (state, meta) →
     meta !! "percent" = Some (VFloat (percent_of (Z.of_nat k + 1) N))) ∧
  PrimFloat.ltb 0 (percent_of 1 N) = true ∧
  (∀ k : nat, (1 ≤ k < length items)%nat →
     PrimFloat.ltb (percent_of (Z.of_nat k) N) (percent_of (Z.of_nat k + 1) N) = true) ∧
  PrimFloat.eqb (percent_of N N) 100 = true.
Proof.
  intros Hne Hlen N published.
  assert (Hn : (1 ≤ length items)%nat) by (destruct items; [done | cbn; lia]).
  destruct (percent_scale_at (length items) ltac:(lia)) as (Hfirst & Hstep & Hlast).
  split; [|split; [exact Hfirst | split; [|exact Hlast]]].
  - subst published. rewrite bulk_import_updates.
    intros k state meta Hk. rewrite list_lookup_fmap in Hk.
    destruct (seq 0 (length items) !! k) as [j|] eqn:Hj; [|done].
    apply lookup_seq in Hj as [-> _]. cbn in Hk. injection Hk as <- <-.
    apply progress_meta_lookup.
  - intros k Hk. by apply Hstep.
Qed.

Lemma bulk_import_percent_scale_witness :
  three_items ≠ [] ∧ (length three_items ≤ 256)%nat ∧
  PrimFloat.ltb 0 (percent_of 1 3) = true ∧
  PrimFloat.ltb (percent_of 1 3) (percent_of 2 3) = true ∧
  PrimFloat.ltb (percent_of 2 3) (percent_of 3 3) = true ∧
  PrimFloat.eqb (percent_of 3 3) 100 = true.
Proof.
  assert (Hne : three_items ≠ []) by discriminate.
  assert (Hlen : (length three_items ≤ 256)%nat) by (cbn; lia).
  destruct (bulk_import_percent_scale {| request_id := "job-0" |} three_items Hne Hlen)
    as (_ & Hfirst & Hstep & Hlast).
  split; [exact Hne|]. split; [exact Hlen|]. split; [exact Hfirst|].
  split; [apply (Hstep 1%nat); cbn; lia|].
  split; [apply (Hstep 2%nat); cbn; lia | exact Hlast].
Defined.

(** ** Requests in sequence *)

(** A status query depends on the application only through what the
    backend holds for the identifier. *)
Lemma status_query_of_meta repr task_id (app : celery) :
  (respond (get_task_status repr task_id) app).2 = app ∧
  ∀ app' : celery,
    get_task_meta app' task_id = get_task_meta app task_id →
    (respond (get_task_status repr task_id) app').1
      = (respond (get_task_status repr task_id) app).1.
Proof.
  unfold respond. rewrite get_task_status_run. split; [reflexivity|].
  intros app' H. rewrite get_task_status_run.
  unfold AsyncResult.ready, AsyncResult.successful, AsyncResult.status,
    AsyncResult.state, AsyncResult.info, AsyncResult.result.
  cbn [AsyncResult.app AsyncResult.id fst]. by rewrite H.
Qed.

Lemma status_query_meta repr task_id (app : celery) state res :
  get_task_meta app task_id = {| status := state; result := res |} →
  (respond (get_task_status repr task_id) app).1 =
    {| code := 200;
       body := inr {|
         TaskStatusResponse.task_id := task_id;
         TaskStatusResponse.status := state;
         TaskStatusResponse.result :=
           if bool_decide (state ∈ states.READY_STATES)
           then (if bool_decide (state = states.SUCCESS) then res else PyNone)
           else if bool_decide (state = "PROGRESS") then res else PyNone;
         TaskStatusResponse.error :=
           if bool_decide (state ∈ states.READY_STATES)
           then (if bool_decide (state = states.SUCCESS) then None
                 else Some (str repr res))
           else None |} |}.
Proof.
  intros H. unfold respond. rewrite get_task_status_run.
  unfold AsyncResult.ready, AsyncResult.successful, AsyncResult.status,
    AsyncResult.state, AsyncResult.info, AsyncResult.result.
  cbn [AsyncResult.app AsyncResult.id fst]. by rewrite H.
Qed.

Lemma get_task_meta_backend (app app' : celery) task_id :
  backend app' !! task_id = backend app !! task_id →
  get_task_meta app' task_id = get_task_meta app task_id.
Proof. unfold get_task_meta. by intros ->. Qed.

(** What a submission request does, whichever of the four it is. *)
Lemma serve_submission repr r call (app : celery) :
  queued_call r = Some call →
  Api.serve repr r app =
    (Api.Submitted {| code := 200;
                      body := inr {| TaskResponse.task_id := uuid app (minted app);
                                     TaskResponse.status := "PENDING" |} |},
     (delay call app).2).
Proof. destruct r; intros [= <-]; reflexivity. Qed.

Lemma serve_status repr task_id (app : celery) :
  Api.serve repr (Api.GetStatus task_id) app =
    (Api.Status (respond (get_task_status repr task_id) app).1, app).
Proof.
  unfold Api.serve.
  pose proof (proj1 (status_query_of_meta repr task_id app)) as H.
  destruct (respond (get_task_status repr task_id) app) as [resp app'].
  cbn in H. by subst.
Qed.

Lemma serve_revoke repr task_id (app : celery) :
  Api.serve repr (Api.DeleteRevoke task_id) app =
    (Api.Revoked (respond (revoke_task task_id) app).1,
     (respond (revoke_task task_id) app).2).
Proof. unfold Api.serve. by destruct (respond (revoke_task task_id) app). Qed.

Lemma revoke_task_state task_id (app : celery) :
  (respond (revoke_task task_id) app).2 =
    if AsyncResult.ready (AsyncResult.new task_id app) then app
    else control_revoke task_id true app.
Proof.
  unfold respond. rewrite revoke_task_run. by destruct (AsyncResult.ready _).
Qed.

(** The worker on a queue that holds one call. *)
Lemma worker_single task_id call (app : celery) :
  broker app = [(task_id, call)] →
  worker app =
    trace_task Core.run task_id call
      {| backend := backend app; broker := []; revoked := revoked app;
         uuid := uuid app; minted := minted app |}.
Proof. intros H. unfold worker, worker_step. by rewrite H. Qed.

Lemma foldl_publish_frame task_id (app : celery) t :
  broker (foldl (publish task_id) app t) = broker app ∧
  revoked (foldl (publish task_id) app t) = revoked app ∧
  uuid (foldl (publish task_id) app t) = uuid app ∧
  minted (foldl (publish task_id) app t) = minted app ∧
  ∀ other, other ≠ task_id →
    backend (foldl (publish task_id) app t) !! other = backend app !! other.
Proof.
  revert app. induction t as [|e t IH]; intros app; [done|].
  cbn [foldl]. destruct (IH (publish task_id app e)) as (-> & -> & -> & -> & Hb).
  destruct e; [done|]. cbn. repeat split; try done.
  intros other Hne. rewrite Hb by done. cbn. by rewrite lookup_insert_ne.
Qed.

(** A worker run touches the backend at the identifier of the call only,
    where it leaves a record, and nothing else of the application. *)
Lemma trace_task_frame task_id call (app : celery) :
  broker (trace_task Core.run task_id call app) = broker app ∧
  revoked (trace_task Core.run task_id call app) = revoked app ∧
  uuid (trace_task Core.run task_id call app) = uuid app ∧
  minted (trace_task Core.run task_id call app) = minted app ∧
  is_Some (backend (trace_task Core.run task_id call app) !! task_id) ∧
  ∀ other, other ≠ task_id →
    backend (trace_task Core.run task_id call app) !! other = backend app !! other.
Proof.
  unfold trace_task. case_bool_decide.
  - cbn. rewrite lookup_insert_eq. repeat split; try done.
    intros other Hne. by rewrite lookup_insert_ne.
  - destruct (foldl_publish_frame task_id app
                (events (Core.run {| request_id := task_id |} call)))
      as (Hb & Hr & Hu & Hm & Hback).
    destruct (outcome _); cbn; rewrite lookup_insert_eq;
      (repeat split; try done);
      intros other Hne; rewrite lookup_insert_ne by done; by apply Hback.
Qed.

(** X11. Just after any of the four submissions the new job reads PENDING on the
    status endpoint, as the submission answered, provided the backend held
    nothing for the identifier drawn. *)
Theorem submitted_job_reads_pending repr r call (app : celery) :
  queued_call r = Some call →
  backend app !! uuid app (minted app) = None →
  let task_id := uuid app (minted app) in
  let app' := (Api.serve repr r app).2 in
  (Api.serve repr r app).1 =
    Api.Submitted {| code := 200;
                     body := inr {| TaskResponse.task_id := task_id;
                                    TaskResponse.status := "PENDING" |} |} ∧
  respond (get_task_status repr task_id) app' = (pending_answer task_id, app').
Proof.
  intros Hr Hnone task_id app'. subst app'.
  rewrite (serve_submission repr r call app Hr). split; [reflexivity|].
  cbn [snd]. set (app' := (delay call app).2).
  assert (Hmeta : get_task_meta app' task_id = {| status := "PENDING"; result := PyNone |}).
  { apply unknown_id_pending. exact Hnone. }
  pose proof (status_query_meta repr task_id app' _ _ Hmeta) as H1.
  pose proof (proj1 (status_query_of_meta repr task_id app')) as H2.
  destruct (respond (get_task_status repr task_id) app') as [resp app''].
  cbn in H1, H2. subst. reflexivity.
Qed.

Lemma submitted_job_reads_pending_witness :
  queued_call (Api.PostFilesCleanup {| CleanupFilesRequest.max_age_days := 14 |})
    = Some (CleanupOldFiles 14) ∧
  backend fresh_app !! uuid fresh_app (minted fresh_app) = None ∧
  respond (get_task_status sample_repr "job-0")
          (Api.serve sample_repr
             (Api.PostFilesCleanup {| CleanupFilesRequest.max_age_days := 14 |})
             fresh_app).2
    = (pending_answer "job-0",
       (Api.serve sample_repr
          (Api.PostFilesCleanup {| CleanupFilesRequest.max_age_days := 14 |})
          fresh_app).2).
Proof.
  split; [reflexivity|]. split; [reflexivity|].
  exact (proj2 (submitted_job_reads_pending sample_repr
                  (Api.PostFilesCleanup {| CleanupFilesRequest.max_age_days := 14 |})
                  (CleanupOldFiles 14) fresh_app eq_refl eq_refl)).
Defined.



(** X13. Submit, revoke, then let a worker reach the job: on an empty queue and
    for an identifier the backend held nothing for, the revocation is
    accepted, the worker marks the job REVOKED without running its body (the
    backend gets that one record and no progress update), the status
    endpoint then reports REVOKED with error ["revoked"] and no result, and a
    second revocation is refused with 400. *)
Theorem revoked_before_start_never_runs repr r call (app : celery) :
  queued_call r = Some call →
  broker app = [] →
  backend app !! uuid app (minted app) = None →
  let task_id := uuid app (minted app) in
  let app1 := (Api.serve repr r app).2 in
  let app2 := (respond (revoke_task task_id) app1).2 in
  let app3 := worker app2 in
  (respond (revoke_task task_id) app1).1 =
    {| code := 200;
       body := inr ({[ "task_id" := VStr task_id;
                       "status" := VStr "revoked" ]} : pydict) |} ∧
  backend app3 =
    <[task_id := {| status := "REVOKED";
                    result := PyExc (mkExc "TaskRevokedError" "revoked") |}]>
      (backend app) ∧
  respond (get_task_status repr task_id) app3 =
    ({| code := 200;
        body := inr {| TaskStatusResponse.task_id := task_id;
                       TaskStatusResponse.status := "REVOKED";
                       TaskStatusResponse.result := PyNone;
                       TaskStatusResponse.error := Some "revoked" |} |}, app3) ∧
  respond (revoke_task task_id) app3 =
    ({| code := 400; body := inl "Task already completed" |}, app3).
Proof.
  intros Hr Hq Hnone task_id app1 app2 app3. subst app3 app2 app1.
  rewrite (serve_submission repr r call app Hr). cbn [snd].
  set (app1 := (delay call app).2).
  assert (Hp : get_task_meta app1 task_id = {| status := "PENDING"; result := PyNone |})
    by (by apply unknown_id_pending).
  assert (Hacc : respond (revoke_task task_id) app1 =
                   ({| code := 200; body := inr (revoked_body task_id) |},
                    control_revoke task_id true app1)).
  { apply revoke_task_accepted. rewrite Hp. apply pending_not_terminal. }
  rewrite Hacc. cbn [fst snd]. split; [reflexivity|].
  rewrite (worker_single task_id call) by (cbn; by rewrite Hq).
  cbn [control_revoke delay snd backend revoked uuid minted app1].
  set (app2 := {| backend := backend app; broker := [];
                  revoked := revoked app ++ [(task_id, true)];
                  uuid := uuid app; minted := S (minted app) |}).
  assert (Hrun : trace_task Core.run task_id call app2 =
            store_result task_id (PyExc (TaskRevokedError "revoked")) "REVOKED" app2).
  { unfold trace_task. rewrite bool_decide_eq_true_2; [done|].
    cbn. rewrite fmap_app. apply elem_of_app. right. cbn. apply list_elem_of_here. }
  rewrite Hrun. set (app3 := store_result _ _ _ app2).
  assert (Hmeta : get_task_meta app3 task_id =
            {| status := "REVOKED"; result := PyExc (TaskRevokedError "revoked") |})
    by apply get_task_meta_store.
  split; [reflexivity|]. split.
  - pose proof (status_query_meta repr task_id app3 _ _ Hmeta) as H1.
    pose proof (proj1 (status_query_of_meta repr task_id app3)) as H2.
    destruct (respond (get_task_status repr task_id) app3) as [resp app''].
    cbn in H1, H2. subst. reflexivity.
  - apply revoke_task_refused. rewrite Hmeta. right. by right.
Qed.

Lemma revoked_before_start_never_runs_witness :
  broker fresh_app = [] ∧
  backend fresh_app !! "job-0" = None ∧
  (let app3 :=
     worker (respond (revoke_task "job-0")
               (Api.serve sample_repr
                  (Api.PostItemsBulkImport {| BulkImportRequest.items := three_items |})
                  fresh_app).2).2 in
   respond (get_task_status sample_repr "job-0") app3 =
     ({| code := 200;
         body := inr {| TaskStatusResponse.task_id := "job-0";
                        TaskStatusResponse.status := "REVOKED";
                        TaskStatusResponse.result := PyNone;
                        TaskStatusResponse.error := Some "revoked" |} |}, app3)).
Proof.
  split; [reflexivity|]. split; [reflexivity|].
  exact (proj1 (proj2 (proj2
    (revoked_before_start_never_runs sample_repr
       (Api.PostItemsBulkImport {| BulkImportRequest.items := three_items |})
       (BulkImport three_items) fresh_app eq_refl eq_refl eq_refl)))).
Defined.

Lemma run_snoc repr actions a (app : celery) :
  Api.run repr (actions ++ [a]) app = Api.step repr (Api.run repr actions app) a.
Proof. unfold Api.run. by rewrite foldl_app. Qed.

(** X14. A revocation does not change what the job reads, so it can be repeated:
    for a job that is not terminal each of [n] revocations in a row is
    accepted and broadcast again (there is no record of an earlier one), and
    the backend and the queue stay as they were. *)
Theorem revoke_can_be_repeated repr (app : celery) task_id (n : nat) :
  ¬ terminal (status (get_task_meta app task_id)) →
  let app' := Api.run repr (replicate n (Api.Call (Api.DeleteRevoke task_id))) app in
  backend app' = backend app ∧
  broker app' = broker app ∧
  revoked app' = revoked app ++ replicate n (task_id, true) ∧
  respond (revoke_task task_id) app' =
    ({| code := 200;
        body := inr ({[ "task_id" := VStr task_id;
                        "status" := VStr "revoked" ]} : pydict) |},
     control_revoke task_id true app').
Proof.
  intros Hnt app'. subst app'.
  assert (Hall : backend (Api.run repr (replicate n (Api.Call (Api.DeleteRevoke task_id))) app)
                   = backend app ∧
                 broker (Api.run repr (replicate n (Api.Call (Api.DeleteRevoke task_id))) app)
                   = broker app ∧
                 revoked (Api.run repr (replicate n (Api.Call (Api.DeleteRevoke task_id))) app)
                   = revoked app ++ replicate n (task_id, true)).
  { induction n as [|n (Hb & Hq & Hr)].
    - cbn. by rewrite app_nil_r.
    - rewrite replicate_S_end, run_snoc. cbn [Api.step]. rewrite serve_revoke.
      cbn [snd]. rewrite revoke_task_state.
      set (appn := Api.run repr _ app) in *.
      assert (Hready : AsyncResult.ready (AsyncResult.new task_id appn) = false).
      { apply not_ready_not_terminal. unfold AsyncResult.status, AsyncResult.state.
        cbn [AsyncResult.app AsyncResult.id].
        by rewrite (get_task_meta_backend app appn) by (by rewrite Hb). }
      rewrite Hready. cbn [control_revoke backend broker revoked].
      rewrite Hb, Hq, Hr.
      repeat split. by rewrite replicate_S_end, app_assoc. }
  destruct Hall as (Hb & Hq & Hr). repeat split; try done.
  apply revoke_task_accepted.
  by rewrite (get_task_meta_backend app) by (by rewrite Hb).
Qed.

Lemma revoke_can_be_repeated_witness :
  ¬ terminal (status (get_task_meta app_submitted "job-0")) ∧
  revoked (Api.run sample_repr
             (replicate 3 (Api.Call (Api.DeleteRevoke "job-0"))) app_submitted)
    = [("job-0", true); ("job-0", true); ("job-0", true)].
Proof.
  assert (H : ¬ terminal (status (get_task_meta app_submitted "job-0"))).
  { vm_compute. intros [H|[H|H]]; discriminate H. }
  split; [exact H|].
  exact (proj1 (proj2 (proj2
    (revoke_can_be_repeated sample_repr app_submitted "job-0" 3 H)))).
Defined.

Lemma serve_backend repr r (app : celery) :
  backend (Api.serve repr r app).2 = backend app ∧
  uuid (Api.serve repr r app).2 = uuid app ∧
  minted (Api.serve repr r app).2
    = (minted app + if Api.is_submission r then 1 else 0)%nat ∧
  length (broker (Api.serve repr r app).2)
    = (length (broker app) + if Api.is_submission r then 1 else 0)%nat.
Proof.
  destruct r as [q|q|q|q|task_id|task_id].
  1-4: erewrite serve_submission by reflexivity;
    cbn [delay snd backend uuid minted broker Api.is_submission];
    rewrite length_app; cbn [length]; repeat split; lia.
  - rewrite serve_status. cbn. repeat split; lia.
  - rewrite serve_revoke. cbn [snd]. rewrite revoke_task_state.
    destruct (AsyncResult.ready _); cbn; repeat split; lia.
Qed.

(** X15. No request writes the result backend: after any sequence of requests
    (no worker step in between) the backend is as before, so every status
    query is answered as before; the queue has grown by exactly the number
    of submissions among them, and so has the count of identifiers drawn. *)
Theorem requests_leave_backend repr (requests : list Api.Request) (app : celery) :
  let app' := Api.run repr (Api.Call <$> requests) app in
  let submissions := length (filter (λ r, Api.is_submission r = true) requests) in
  backend app' = backend app ∧
  minted app' = (minted app + submissions)%nat ∧
  length (broker app') = (length (broker app) + submissions)%nat ∧
  ∀ task_id,
    (respond (get_task_status repr task_id) app').1
      = (respond (get_task_status repr task_id) app).1.
Proof.
  intros app' submissions. subst app' submissions.
  assert (H : backend (Api.run repr (Api.Call <$> requests) app) = backend app ∧
    minted (Api.run repr (Api.Call <$> requests) app)
      = (minted app + length (filter (λ r, Api.is_submission r = true) requests))%nat ∧
    length (broker (Api.run repr (Api.Call <$> requests) app))
      = (length (broker app)
         + length (filter (λ r, Api.is_submission r = true) requests))%nat).
  { induction requests as [|r requests IH] using rev_ind.
    - cbn. repeat split; lia.
    - rewrite fmap_app, filter_app, length_app. cbn [fmap list_fmap].
      rewrite run_snoc. cbn [Api.step].
      destruct (serve_backend repr r (Api.run repr (Api.Call <$> requests) app))
        as (Hb & _ & Hm & Hq).
      destruct IH as (IHb & IHm & IHq). rewrite Hb, Hm, Hq, IHb, IHm, IHq.
      split; [done|].
      destruct (Api.is_submission r) eqn:Hs.
      + rewrite (filter_cons_True _ r []) by done. cbn. lia.
      + rewrite (filter_cons_False _ r []) by (by rewrite Hs). cbn. lia. }
  destruct H as (Hb & Hm & Hq). repeat split; try done.
  intros task_id. apply status_query_of_meta.
  apply get_task_meta_backend. by rewrite Hb.
Qed.

(** X16. Method and path settle the handler: two requests on the same route
    reach the same function with the same path parameter. *)
Theorem routes_do_not_clash (r1 r2 : Api.Request) :
  Api.route r1 = Api.route r2 →
  Api.endpoint r1 = Api.endpoint r2 ∧ Api.path_param r1 = Api.path_param r2.
Proof.
  destruct r1, r2; cbn; intros H; try discriminate H; try done.
  all: split; [done|]; f_equal; by simplify_eq.
Qed.

Lemma routes_do_not_clash_witness :
  Api.route (Api.PostItemsProcess validate_item_1)
    = Api.route (Api.PostItemsProcess
                   {| ProcessItemRequest.item_id := 2;
                      ProcessItemRequest.operation := "sync" |}) ∧
  Api.endpoint (Api.PostItemsProcess validate_item_1)
    = Api.endpoint (Api.PostItemsProcess
                      {| ProcessItemRequest.item_id := 2;
                         ProcessItemRequest.operation := "sync" |}).
Proof.
  split; [reflexivity|].
  exact (proj1 (routes_do_not_clash
                  (Api.PostItemsProcess validate_item_1)
                  (Api.PostItemsProcess
                     {| ProcessItemRequest.item_id := 2;
                        ProcessItemRequest.operation := "sync" |}) eq_refl)).
Defined.

(** ** Requests and worker steps in any order *)

(** What a request does to the application besides answering. *)
Lemma serve_effect repr r (app : celery) :
  backend (Api.serve repr r app).2 = backend app ∧
  uuid (Api.serve repr r app).2 = uuid app ∧
  broker (Api.serve repr r app).2
    = broker app ++ match queued_call r with
                    | Some call => [(uuid app (minted app), call)]
                    | None => []
                    end ∧
  minted (Api.serve repr r app).2
    = match queued_call r with
      | Some _ => S (minted app)
      | None => minted app
      end.
Proof.
  destruct r as [q|q|q|q|task_id|task_id].
  1-4: by erewrite serve_submission by reflexivity.
  - rewrite serve_status. cbn. by rewrite app_nil_r.
  - rewrite serve_revoke. cbn [snd]. rewrite revoke_task_state.
    destruct (AsyncResult.ready _); cbn; by rewrite app_nil_r.
Qed.

(** What a worker step does: nothing on an empty queue; otherwise the
    oldest call leaves the queue and gets a record, and no other record
    changes. *)
Lemma worker_effect (app : celery) :
  uuid (worker app) = uuid app ∧
  minted (worker app) = minted app ∧
  match broker app with
  | [] => worker app = app
  | (task_id, _) :: rest =>
      broker (worker app) = rest ∧
      is_Some (backend (worker app) !! task_id) ∧
      ∀ other, other ≠ task_id → backend (worker app) !! other = backend app !! other
  end.
Proof.
  unfold worker, worker_step. destruct (broker app) as [|[task_id call] rest]; [done|].
  match goal with |- context [trace_task Core.run task_id call ?a] =>
    destruct (trace_task_frame task_id call a) as (Hq & _ & Hu & Hm & Hs & Hb) end.
  rewrite Hq, Hu, Hm. repeat split; try done.
Qed.

Lemma step_uuid repr (app : celery) a : uuid (Api.step repr app a) = uuid app.
Proof.
  destruct a as [r|]; cbn [Api.step]; [apply serve_effect | apply worker_effect].
Qed.

Lemma run_cons repr a actions (app : celery) :
  Api.run repr (a :: actions) app = Api.run repr actions (Api.step repr app a).
Proof. reflexivity. Qed.


Lemma issued_only_step repr (app : celery) a :
  issued_only app → issued_only (Api.step repr app a).
Proof.
  intros [Hq Hb]. unfold issued_only. rewrite step_uuid.
  destruct a as [r|]; cbn [Api.step].
  - destruct (serve_effect repr r app) as (Eb & _ & Eq & _). rewrite Eb, Eq.
    split; [|exact Hb]. intros id. rewrite fmap_app, elem_of_app.
    intros [Hin|Hin]; [by apply Hq|].
    destruct (queued_call r); cbn in Hin; [|by apply elem_of_nil in Hin].
    apply list_elem_of_singleton in Hin. eauto.
  - destruct (worker_effect app) as (_ & _ & Hw).
    destruct (broker app) as [|[task_id call] rest] eqn:Ebroker.
    { rewrite Hw, Ebroker. split; [|exact Hb]. intros id Hin. by apply elem_of_nil in Hin. }
    destruct Hw as (Eq & _ & Hother). rewrite Eq. split.
    + intros id Hin. apply Hq. cbn. by apply list_elem_of_further.
    + intros id Hsome. destruct (decide (id = task_id)) as [->|Hne].
      * apply Hq. cbn. apply list_elem_of_here.
      * apply Hb. by rewrite <- Hother.
Qed.

Lemma issued_only_run repr actions : ∀ app : celery,
  issued_only app →
  issued_only (Api.run repr actions app) ∧
  uuid (Api.run repr actions app) = uuid app.
Proof.
  induction actions as [|a actions IH]; intros app H; [done|].
  rewrite run_cons.
  destruct (IH (Api.step repr app a) (issued_only_step repr app a H)) as [H1 H2].
  split; [exact H1|]. by rewrite H2, step_uuid.
Qed.

(** X17. From the start, whatever requests and worker steps have happened, an
    identifier that no submission can have handed out has no record: a
    status query for it answers PENDING with neither result nor error, and
    revoking it is accepted with 200. *)
Theorem never_issued_id_stays_pending repr (uuid : nat → string) actions task_id :
  (∀ k, uuid k ≠ task_id) →
  let app := Api.run repr actions (Api.initial uuid) in
  backend app !! task_id = None ∧
  respond (get_task_status repr task_id) app = (pending_answer task_id, app) ∧
  (respond (revoke_task task_id) app).1 =
    {| code := 200;
       body := inr ({[ "task_id" := VStr task_id;
                       "status" := VStr "revoked" ]} : pydict) |}.
Proof.
  intros Hfresh app.
  assert (Hinit : issued_only (Api.initial uuid)).
  { split; intros id H; [by apply elem_of_nil in H|].
    cbn in H. rewrite lookup_empty in H. by destruct H. }
  destruct (issued_only_run repr actions _ Hinit) as [[_ Hb] Hu]. fold app in Hb, Hu.
  assert (Hnone : backend app !! task_id = None).
  { destruct (backend app !! task_id) eqn:E; [|done].
    destruct (Hb task_id) as [k Hk]; [by rewrite E|].
    rewrite Hu in Hk. cbn in Hk. by destruct (Hfresh k). }
  pose proof (unknown_id_pending app task_id Hnone) as Hmeta.
  split; [exact Hnone|]. split.
  - pose proof (status_query_meta repr task_id app _ _ Hmeta) as H1.
    pose proof (proj1 (status_query_of_meta repr task_id app)) as H2.
    destruct (respond (get_task_status repr task_id) app) as [resp app'].
    cbn in H1, H2. subst. reflexivity.
  - rewrite revoke_task_accepted; [done|]. rewrite Hmeta. apply pending_not_terminal.
Qed.

Lemma sample_uuid_not (k : nat) : sample_uuid k ≠ "never-submitted".
Proof. unfold sample_uuid. rewrite !append_cons. discriminate. Qed.

Lemma never_issued_id_stays_pending_witness :
  let app := Api.run sample_repr sample_actions (Api.initial sample_uuid) in
  backend app !! "never-submitted" = None ∧
  respond (get_task_status sample_repr "never-submitted") app
    = (pending_answer "never-submitted", app).
Proof.
  intros app.
  destruct (never_issued_id_stays_pending sample_repr sample_uuid sample_actions
              "never-submitted" sample_uuid_not) as (H1 & H2 & _).
  split; [exact H1 | exact H2].
Defined.





